(** * Catalist -> MAP schema conversion notebooks

    A shallow embedding of the two conversion notebooks of the repository:

    - the single-file pipeline ([Module SingleFile]), whose converters
      emit the [type_kind] literals "Holon", "Property", "Relationship";
    - the bundle pipeline ([Module Bundle]), whose converters emit
      "HolonType", "PropertyType", "RelationshipType" and whose driver
      groups the descriptors per kind and writes a manifest.

    Both notebooks read a table with [pd.read_csv] and walk it with
    [DataFrame.iterrows]; a row is a pandas [Series] indexed by column
    name.  A blank field of the CSV reaches the converters as the float
    NaN, which is what [pd.isna] tests for and what the table preview
    stored in the notebook shows in every unfilled cell. *)

From Stdlib Require Import ZArith NArith Ascii DecimalString.
From stdpp Require Import gmap strings list fin_maps.

Set Warnings "-register-all,-clear-no-such-hyp".
Local Open Scope Z_scope.

(** ** Python values and the built-ins the notebooks call *)

Module Py.

(** A [str] is modelled as a string of code points below 256. *)

(** [str.isspace] on one code point (the white space of Unicode that
    lies below 256). *)
Definition isspace (c : ascii) : bool :=
  let n := N_of_ascii c in
  ((9 <=? n) && (n <=? 13) || (28 <=? n) && (n <=? 32)
   || (n =? 133) || (n =? 160))%N.

(** White space as [int] skips it around the digits: the C locale's
    white space among the code points below 127, Unicode's above. *)
Definition int_space (c : ascii) : bool :=
  let n := N_of_ascii c in
  ((9 <=? n) && (n <=? 13) || (n =? 32) || (n =? 133) || (n =? 160))%N.

Fixpoint lstrip_by (space : ascii → bool) (s : string) : string :=
  match s with
  | EmptyString => EmptyString
  | String c r => if space c then lstrip_by space r else s
  end.

Fixpoint rstrip_by (space : ascii → bool) (s : string) : string :=
  match s with
  | EmptyString => EmptyString
  | String c r =>
      match rstrip_by space r with
      | EmptyString => if space c then EmptyString else String c EmptyString
      | r' => String c r'
      end
  end.

(** [s.strip()] *)
Definition strip (s : string) : string :=
  rstrip_by isspace (lstrip_by isspace s).

(** [s.split(sep)] for a one-character separator: never the empty list. *)
Fixpoint split (sep : ascii) (s : string) : list string :=
  match s with
  | EmptyString => [EmptyString]
  | String c r =>
      if Ascii.eqb c sep then EmptyString :: split sep r
      else match split sep r with
           | h :: t => String c h :: t
           | [] => [String c EmptyString]
           end
  end.

(** [s.lower()] on code points below 256. *)
Definition lower_char (c : ascii) : ascii :=
  let n := N_of_ascii c in
  if ((65 <=? n) && (n <=? 90)
      || (192 <=? n) && (n <=? 222) && negb (n =? 215))%N
  then ascii_of_N (n + 32) else c.

Fixpoint lower (s : string) : string :=
  match s with
  | EmptyString => EmptyString
  | String c r => String (lower_char c) (lower r)
  end.

(** [s.endswith(suffix)] *)
Definition endswith (s suffix : string) : bool :=
  String.prefix (String.rev suffix) (String.rev s).

(** The values a cell of a row, or the default of [row.get], can be:
    [None], a [bool], an [int], the float NaN that marks a blank field,
    or a [str].  (Finite floats are not modelled.) *)
Inductive scalar :=
  | SNone
  | SBool (b : bool)
  | SInt (z : Z)
  | SNaN
  | SStr (s : string).

#[global] Instance scalar_eq_dec : EqDecision scalar.
Proof. solve_decision. Defined.

(** Truth value of an object, as [if x], [x or y] and [not x] take it.
    NaN is a non-zero float, hence true. *)
Definition truthy (v : scalar) : bool :=
  match v with
  | SNone => false
  | SBool b => b
  | SInt z => negb (z =? 0)
  | SNaN => true
  | SStr s => negb (String.eqb s EmptyString)
  end.

(** [x or y] *)
Definition or_ (x y : scalar) : scalar := if truthy x then x else y.

(** [str(x)], which is also how an f-string renders [{x}]. *)
Definition str (v : scalar) : string :=
  match v with
  | SNone => "None"
  | SBool true => "True"
  | SBool false => "False"
  | SInt z => NilZero.string_of_int (Z.to_int z)
  | SNaN => "nan"
  | SStr s => s
  end.

(** [pd.isna(x)] on a scalar *)
Definition isna (v : scalar) : bool :=
  match v with
  | SNone | SNaN => true
  | _ => false
  end.

Inductive exn :=
  | KeyError (key : string)
  | ValueError
  | TypeError
  | AttributeError.

#[global] Instance exn_eq_dec : EqDecision exn.
Proof. solve_decision. Defined.

(** A computation either returns or raises. *)
Inductive result (A : Type) :=
  | Ok (a : A)
  | Raise (e : exn).
Arguments Ok {A} a.
Arguments Raise {A} e.

#[global] Instance result_eq_dec {A} `{EqDecision A} : EqDecision (result A).
Proof. solve_decision. Defined.

#[global] Instance result_ret : MRet result := @Ok.
#[global] Instance result_bind : MBind result := λ A B f m,
  match m with
  | Ok a => f a
  | Raise e => Raise e
  end.
#[global] Instance result_fmap : FMap result := λ A B f m,
  match m with
  | Ok a => Ok (f a)
  | Raise e => Raise e
  end.

(** Decimal digits, with single underscores allowed between digits. *)
Fixpoint int_digits (need : bool) (acc : Z) (s : string) : option Z :=
  match s with
  | EmptyString => if need then None else Some acc
  | String c r =>
      match Ascii.is_nat c with
      | Some d => int_digits false (10 * acc + Z.of_nat d) r
      | None =>
          if Ascii.eqb c "_" && negb need then int_digits true acc r else None
      end
  end.

(** [int(s)] for a [str]: surrounding white space, an optional sign, digits.
    (The interpreter's configurable limit on the number of digits is not
    modelled.) *)
Definition int_str (s : string) : option Z :=
  match rstrip_by int_space (lstrip_by int_space s) with
  | String "-" r => Z.opp <$> int_digits true 0 r
  | String "+" r => int_digits true 0 r
  | t => int_digits true 0 t
  end.

(** [int(x)] *)
Definition int (v : scalar) : result Z :=
  match v with
  | SNone => Raise TypeError
  | SBool b => Ok (if b then 1 else 0)
  | SInt z => Ok z
  | SNaN => Raise ValueError
  | SStr s => match int_str s with Some z => Ok z | None => Raise ValueError end
  end.

(** [x.strip()] on an arbitrary object: only a [str] has the method. *)
Definition strip_method (v : scalar) : result string :=
  match v with
  | SStr s => Ok (strip s)
  | _ => Raise AttributeError
  end.

(** The objects the converters build and [json.dump] writes. *)
Inductive value :=
  | VAtom (a : scalar)
  | VList (l : list value)
  | VDict (m : gmap string value).

Definition VStr (s : string) : value := VAtom (SStr s).
Definition VNone : value := VAtom SNone.
Definition VBool (b : bool) : value := VAtom (SBool b).
Definition VInt (z : Z) : value := VAtom (SInt z).

(** [d[k]] on a built object *)
Definition item (d : value) (k : string) : option value :=
  match d with
  | VDict m => m !! k
  | _ => None
  end.

(** A row of the table: its cells by column name. *)
Abbreviation row := (gmap string scalar).

(** [row[k]] *)
Definition row_item (r : row) (k : string) : result scalar :=
  match r !! k with
  | Some v => Ok v
  | None => Raise (KeyError k)
  end.

(** [row.get(k, d)]; [row.get(k)] is [row_get r k SNone]. *)
Definition row_get (r : row) (k : string) (d : scalar) : scalar :=
  default d (r !! k).

(** [[p.strip() for p in s.split(",") if p.strip()]] *)
Definition strip_tokens (s : string) : list string :=
  p ← split "," s;
  if truthy (SStr (strip p)) then [strip p] else [].

(** [itertools.product(xs, ys)]: the first list outermost. *)
Definition product {A B} (xs : list A) (ys : list B) : list (A * B) :=
  x ← xs; y ← ys; [(x, y)].

(** The schema identity constants a notebook is configured with. *)
Record schema_info := {
  schema_type_name : string;
  schema_label : string;
  schema_description : string
}.

End Py.
Import Py.

(** ** The single-file pipeline *)

Module SingleFile.

Definition TYPEKINDS_TO_EXPORT : list string :=
  ["HolonType"; "PropertyType"; "ValueType";
   "EnumType"; "EnumVariantType"; "RelationshipType"].

Definition SCHEMA_INFO : schema_info :=
  {| schema_type_name := "CatalistSchema";
     schema_label := "Catalist 2.5 Schema";
     schema_description := "Types auto-generated from Catalist Airtable export" |}.

Definition bool_norm (val : scalar) : bool :=
  match val with
  | SBool b => b
  | _ => String.eqb (lower (strip (str val))) "checked"
  end.

(** [ref(type_name, schema=None, space=None)] *)
Definition ref (type_name schema space : scalar) : value :=
  let obj : gmap string value := {[ "type_name" := VAtom type_name ]} in
  let obj := if truthy schema then <["schema" := VAtom schema]> obj else obj in
  let obj := if truthy space then <["space" := VAtom space]> obj else obj in
  VDict {[ "$ref" := VDict obj ]}.

Definition common_header (r : row) (descriptor_name : string)
  : result (gmap string value) :=
  kind ← row_item r "TypeKind";
  mret ({[ "descriptor_name" := VStr descriptor_name;
           "label" := VAtom (or_ (row_get r "Label (Human Readable)" (SStr "")) (SStr ""));
           "description" := VAtom (or_ (row_get r "Description" (SStr "")) (SStr ""));
           "is_dependent" := VBool (bool_norm (row_get r "Is Dependent" (SBool false)));
           "is_value_type" := VBool (bool_norm (row_get r "Is ValueType" (SBool false)));
           "described_by" := ref kind SNone SNone;
           "is_subtype_of" := VNone ]} : gmap string value).

Definition row_to_holontype (r : row) : result value :=
  type_name ← row_item r "Type Name";
  spec ← common_header r (str type_name +:+ "Descriptor");
  let props := row_get r "MAP PROPERTIES PropertyTypes" (SStr "") in
  let spec :=
    <["properties" :=
        VList (if isna props then [] else VStr <$> strip_tokens (str props))]> spec in
  let keyp := row_get r "MAP KEY_PROPERTIES PropertyTypes" (SStr "") in
  let spec :=
    <["key_properties" :=
        VList (if isna keyp then [] else VStr <$> strip_tokens (str keyp))]> spec in
  let spec := <["type_name" := VAtom type_name]> spec in
  mret (VDict {[ "type_name" := VAtom type_name;
                 "type_kind" := VStr "Holon";
                 "described_by" := ref (SStr "HolonType") SNone SNone;
                 "spec" := VDict spec ]}).

Definition row_to_propertytype (r : row) : result value :=
  type_name ← row_item r "Type Name";
  spec ← common_header r (str type_name +:+ "_descriptor");
  let spec := <["property_name" := VAtom type_name]> spec in
  ref_val ← strip_method (row_get r "ValueType (VALUE_TYPE_FOR)" (SStr ""));
  let spec := <["value_type" := ref (SStr ref_val) SNone SNone]> spec in
  mret (VDict {[ "type_name" := VAtom type_name;
                 "type_kind" := VStr "Property";
                 "described_by" := ref (SStr "PropertyType") SNone SNone;
                 "spec" := VDict spec ]}).

Definition row_to_relationshiptype (r : row) : result (list value) :=
  rel_name ← row_item r "Type Name";
  let source_owns := bool_norm (row_get r "Source Owns Relationship" (SBool false)) in
  let deletion_sem := row_get r "Deletion Semantic" SNone in
  let deletion_sem :=
    if isna deletion_sem || String.eqb (strip (str deletion_sem)) ""
    then SNone else deletion_sem in
  let load_links := bool_norm (row_get r "Load Links Immediate" (SBool false)) in
  let load_holons := bool_norm (row_get r "Load Holons Immediate" (SBool false)) in
  let has_inverse := or_ (row_get r "Has Inverse" (SStr "")) SNone in
  target_min ← int (or_ (row_get r "Target Min Cardinality" SNone) (SInt 0));
  target_max ← int (or_ (row_get r "Target Max Cardinality" SNone) (SInt 1));
  let target_sem := row_get r "Target Semantic" (SStr "Set") in
  let froms := strip_tokens (str (row_get r "Relationship From" (SStr ""))) in
  let tos := strip_tokens (str (row_get r "Relationship To" (SStr ""))) in
  mapM (λ '(src, tgt),
      let type_name := src +:+ "-" +:+ str rel_name +:+ "->" +:+ tgt in
      spec ← common_header r (type_name +:+ "Descriptor");
      let spec : gmap string value :=
        {[ "relationship_name" := VAtom rel_name;
           "source_owns_relationship" := VBool source_owns;
           "deletion_semantic" := VAtom deletion_sem;
           "load_links_immediate" := VBool load_links;
           "load_holons_immediate" := VBool load_holons;
           "has_inverse" :=
             (if truthy has_inverse then ref has_inverse SNone SNone else VNone);
           "target_holon_type" :=
             ref (SStr tgt) (SStr (schema_type_name SCHEMA_INFO)) SNone;
           "target_semantic" := VAtom target_sem;
           "target_min_cardinality" := VInt target_min;
           "target_max_cardinality" := VInt target_max ]} ∪ spec in
      mret (VDict {[ "type_name" := VStr type_name;
                     "type_kind" := VStr "Relationship";
                     "described_by" := ref (SStr "RelationshipType") SNone SNone;
                     "spec" := VDict spec ]}))
    (product froms tos).

(** [kind in kinds], for a list of [str] *)
Definition kind_in (kind : scalar) (kinds : list string) : bool :=
  bool_decide (kind ∈ SStr <$> kinds).

(** The body of the loop over the rows: [descriptors] is extended in place. *)
Definition convert_row (descriptors : list value) (r : row) : result (list value) :=
  kind ← row_item r "TypeKind";
  if negb (kind_in kind TYPEKINDS_TO_EXPORT) then mret descriptors
  else if bool_decide (kind = SStr "HolonType") then
    d ← row_to_holontype r; mret (descriptors ++ [d])
  else if bool_decide (kind = SStr "PropertyType") then
    d ← row_to_propertytype r; mret (descriptors ++ [d])
  else if bool_decide (kind = SStr "RelationshipType") then
    ds ← row_to_relationshiptype r; mret (descriptors ++ ds)
  else mret descriptors.

(** [for _, row in df.iterrows(): ...], from the descriptors gathered so far *)
Fixpoint convert_rows (descriptors : list value) (rows : list row)
  : result (list value) :=
  match rows with
  | [] => mret descriptors
  | r :: rows' =>
      descriptors' ← convert_row descriptors r;
      convert_rows descriptors' rows'
  end.

Definition descriptors (df : list row) : result (list value) :=
  convert_rows [] df.

Definition schema_block : value :=
  VDict {[ "type_name" := VStr (schema_type_name SCHEMA_INFO);
           "described_by" := ref (SStr "SchemaHolonType") SNone SNone;
           "properties" :=
             VDict {[ "name" := VStr (schema_label SCHEMA_INFO);
                      "description" := VStr (schema_description SCHEMA_INFO) ]} ]}.

(** [payload = {"schema": schema_block, "types": descriptors}], from the
    rows of the table *)
Definition payload (df : list row) : result value :=
  ds ← descriptors df;
  mret (VDict {[ "schema" := schema_block; "types" := VList ds ]}).

Definition BASE_NAME : string := "catalist_schema".

(** The name of the file the payload is written to,
    [f"{BASE_NAME}_{timestamp}.json"], from the text of the time stamp. *)
Definition out_name (timestamp : string) : string :=
  BASE_NAME +:+ "_" +:+ timestamp +:+ ".json".

End SingleFile.

(** ** The bundle pipeline *)

Module Bundle.

Definition TYPEKINDS : list string :=
  ["HolonType"; "PropertyType"; "ValueType";
   "EnumType"; "EnumVariantType"; "RelationshipType"].

Definition default_schema : schema_info :=
  {| schema_type_name := "CatalistSchema";
     schema_label := "Catalist 2.5 Schema";
     schema_description := "Types generated from Catalist Airtable export" |}.

Definition bool_norm (val : scalar) : bool :=
  match val with
  | SBool b => b
  | _ => String.eqb (lower (strip (str val))) "checked"
  end.

(** [ref(type_name, schema=None, space=None)] *)
Definition ref (type_name schema space : scalar) : value :=
  let obj : gmap string value := {[ "type_name" := VAtom type_name ]} in
  let obj := if truthy schema then <["schema" := VAtom schema]> obj else obj in
  let obj := if truthy space then <["space" := VAtom space]> obj else obj in
  VDict {[ "$ref" := VDict obj ]}.

(** The notebook defines [common_header] in two cells, with the same body. *)
Definition common_header (r : row) (descriptor_name : string)
  : result (gmap string value) :=
  kind ← row_item r "TypeKind";
  mret ({[ "descriptor_name" := VStr descriptor_name;
           "label" := VAtom (or_ (row_get r "Label (Human Readable)" (SStr "")) (SStr ""));
           "description" := VAtom (or_ (row_get r "Description" (SStr "")) (SStr ""));
           "is_dependent" := VBool (bool_norm (row_get r "Is Dependent" (SBool false)));
           "is_value_type" := VBool (bool_norm (row_get r "Is ValueType" (SBool false)));
           "described_by" := ref kind SNone SNone;
           "is_subtype_of" := VNone ]} : gmap string value).

Definition row_to_holontype (r : row) : result value :=
  name ← row_item r "Type Name";
  spec ← common_header r (str name +:+ "Descriptor");
  let raw := row_get r "MAP PROPERTIES PropertyTypes" (SStr "") in
  let spec :=
    <["properties" :=
        VList (if isna raw then [] else VStr <$> strip_tokens (str raw))]> spec in
  let raw := row_get r "MAP KEY_PROPERTIES PropertyTypes" (SStr "") in
  let spec :=
    <["key_properties" :=
        VList (if isna raw then [] else VStr <$> strip_tokens (str raw))]> spec in
  let spec := <["type_name" := VAtom name]> spec in
  mret (VDict {[ "type_kind" := VStr "HolonType";
                 "type_name" := VAtom name;
                 "described_by" := ref (SStr "HolonType") SNone SNone;
                 "spec" := VDict spec ]}).

Definition row_to_propertytype (r : row) : result value :=
  name ← row_item r "Type Name";
  spec ← common_header r (str name +:+ "_descriptor");
  let spec := <["property_name" := VAtom name]> spec in
  ref_val ← strip_method (row_get r "ValueType (VALUE_TYPE_FOR)" (SStr ""));
  let spec :=
    <["value_type" :=
        (if truthy (SStr ref_val) then ref (SStr ref_val) SNone SNone else VNone)]> spec in
  mret (VDict {[ "type_kind" := VStr "PropertyType";
                 "type_name" := VAtom name;
                 "described_by" := ref (SStr "PropertyType") SNone SNone;
                 "spec" := VDict spec ]}).

Definition row_to_relationshiptype (r : row) : result (list value) :=
  rel ← row_item r "Type Name";
  let source_owns := bool_norm (row_get r "Source Owns Relationship" (SBool false)) in
  let deletion_sem := row_get r "Deletion Semantic" SNone in
  let deletion_sem :=
    if isna deletion_sem || negb (truthy (SStr (strip (str deletion_sem))))
    then SNone else deletion_sem in
  let load_links := bool_norm (row_get r "Load Links Immediate" (SBool false)) in
  let load_holons := bool_norm (row_get r "Load Holons Immediate" (SBool false)) in
  let has_inv := or_ (row_get r "Has Inverse" SNone) SNone in
  tmin ← int (or_ (row_get r "Target Min Cardinality" SNone) (SInt 0));
  tmax ← int (or_ (row_get r "Target Max Cardinality" SNone) (SInt 1));
  let tsem := row_get r "Target Semantic" (SStr "Set") in
  let froms := strip_tokens (str (row_get r "Relationship From" (SStr ""))) in
  let tos := strip_tokens (str (row_get r "Relationship To" (SStr ""))) in
  mapM (λ '(src, tgt),
      let tname := src +:+ "-" +:+ str rel +:+ "->" +:+ tgt in
      spec ← common_header r (tname +:+ "Descriptor");
      let spec : gmap string value :=
        {[ "relationship_name" := VAtom rel;
           "source_owns_relationship" := VBool source_owns;
           "deletion_semantic" := VAtom deletion_sem;
           "load_links_immediate" := VBool load_links;
           "load_holons_immediate" := VBool load_holons;
           "has_inverse" :=
             (if truthy has_inv then ref has_inv SNone SNone else VNone);
           "target_holon_type" :=
             ref (SStr tgt) (SStr (schema_type_name default_schema)) SNone;
           "target_semantic" := VAtom tsem;
           "target_min_cardinality" := VInt tmin;
           "target_max_cardinality" := VInt tmax ]} ∪ spec in
      mret (VDict {[ "type_kind" := VStr "RelationshipType";
                     "type_name" := VStr tname;
                     "described_by" := ref (SStr "RelationshipType") SNone SNone;
                     "spec" := VDict spec ]}))
    (product froms tos).

(** [kind in kinds], for a list of [str] *)
Definition kind_in (kind : scalar) (kinds : list string) : bool :=
  bool_decide (kind ∈ SStr <$> kinds).

(** The body of the loop over the rows: [all_desc] is extended in place. *)
Definition convert_row (all_desc : list value) (r : row) : result (list value) :=
  kind ← row_item r "TypeKind";
  if negb (kind_in kind TYPEKINDS) then mret all_desc
  else if bool_decide (kind = SStr "HolonType") then
    d ← row_to_holontype r; mret (all_desc ++ [d])
  else if bool_decide (kind = SStr "PropertyType") then
    d ← row_to_propertytype r; mret (all_desc ++ [d])
  else if bool_decide (kind = SStr "RelationshipType") then
    ds ← row_to_relationshiptype r; mret (all_desc ++ ds)
  else mret all_desc.

(** [for _, row in df.iterrows(): ...], from the descriptors gathered so far *)
Fixpoint convert_rows (all_desc : list value) (rows : list row)
  : result (list value) :=
  match rows with
  | [] => mret all_desc
  | r :: rows' =>
      all_desc' ← convert_row all_desc r;
      convert_rows all_desc' rows'
  end.

Definition all_desc (df : list row) : result (list value) :=
  convert_rows [] df.

(** The name of the output directory, [f"map_types_{timestamp}"], from
    the text of the time stamp. *)
Definition out_dir_name (timestamp : string) : string :=
  "map_types_" +:+ timestamp.

(** [d["type_kind"]], which the bucket loop uses as a key (a list or a
    dict cannot be one) and the write loop lower-cases (only a [str] can
    be). *)
Definition type_kind_of (d : value) : result string :=
  match item d "type_kind" with
  | Some (VAtom (SStr kind)) => Ok kind
  | Some (VAtom _) => Raise AttributeError
  | Some _ => Raise TypeError
  | None => Raise (KeyError "type_kind")
  end.

(** A dict keeps its keys in insertion order: the buckets are an
    association list with one entry per key. *)
Abbreviation buckets := (list (string * list value)).

(** [descriptor_buckets.setdefault(kind, []).append(d)] *)
Fixpoint setdefault_append (kind : string) (d : value) (bs : buckets) : buckets :=
  match bs with
  | [] => [(kind, [d])]
  | (k, items) :: bs' =>
      if String.eqb k kind then (k, items ++ [d]) :: bs'
      else (k, items) :: setdefault_append kind d bs'
  end.

Fixpoint bucket_all (bs : buckets) (ds : list value) : result buckets :=
  match ds with
  | [] => mret bs
  | d :: ds' =>
      kind ← type_kind_of d;
      bucket_all (setdefault_append kind d bs) ds'
  end.

Definition descriptor_buckets (all_desc : list value) : result buckets :=
  bucket_all [] all_desc.

(** The output directory: the content of each entry, by name.  The
    directory is made with [mkdir(exist_ok=True)], so a run starts from
    whatever it holds already. *)
Abbreviation directory := (gmap string value).

(** [f"{kind.lower()}s.json"] *)
Definition bucket_file (kind : string) : string := lower kind +:+ "s.json".

(** [for kind, items in descriptor_buckets.items(): ... json.dump(items, f)] *)
Definition write_buckets (bs : buckets) (out_dir : directory) : directory :=
  foldl (λ dir '(kind, items), <[bucket_file kind := VList items]> dir) out_dir bs.

(** [[f.name for f in OUT_DIR.glob("*.json") if f.name != "schema.json"]],
    with names matched case-sensitively.  The order of the listing is the
    file system's; here it is the order of the map's keys, and no
    statement below depends on it. *)
Definition type_files (out_dir : directory) : list string :=
  filter (λ name, endswith name ".json" = true ∧ name ≠ "schema.json")
         (elements (dom out_dir)).

Definition manifest (out_dir : directory) : value :=
  VDict {[ "schema" :=
             VDict {[ "type_name" := VStr (schema_type_name default_schema);
                      "described_by" := ref (SStr "SchemaType") (SStr "CoreSchema") SNone;
                      "properties" :=
                        VDict {[ "name" := VStr (schema_label default_schema);
                                 "description" := VStr (schema_description default_schema) ]} ]};
           "type_files" := VList (VStr <$> type_files out_dir) ]}.

(** The cells from the conversion of the rows to the manifest, run on the
    table [df] with the output directory holding [out_dir]: the directory
    afterwards.  What a raising run leaves on disk is not modelled. *)
Definition run (df : list row) (out_dir : directory) : result directory :=
  ds ← all_desc df;
  bs ← descriptor_buckets ds;
  let out_dir := write_buckets bs out_dir in
  mret (<["schema.json" := manifest out_dir]> out_dir).

End Bundle.

(** ** Vocabulary of the statements *)

(** [d[k1][k2]...] *)
Fixpoint lookup_path (d : value) (ks : list string) : option value :=
  match ks with
  | [] => Some d
  | k :: ks' => item d k ≫= λ d', lookup_path d' ks'
  end.

(** The [type_name] of each descriptor of a list, in order. *)
Definition type_names (ds : list value) : list (option value) :=
  (λ d, item d "type_name") <$> ds.

(** [d[k1][k2]...] for each descriptor a converter returned. *)
Definition each_path (ks : list string) (m : result (list value))
  : result (list (option value)) :=
  fmap (M:=result) (fmap (M:=list) (λ d, lookup_path d ks)) m.

(** The "from" and "to" lists a relationship row is expanded over. *)
Definition froms_of (r : row) : list string :=
  strip_tokens (str (row_get r "Relationship From" (SStr ""))).
Definition tos_of (r : row) : list string :=
  strip_tokens (str (row_get r "Relationship To" (SStr ""))).

(** The two integer conversions of a relationship row. *)
Definition target_min_of (r : row) : result Z :=
  int (or_ (row_get r "Target Min Cardinality" SNone) (SInt 0)).
Definition target_max_of (r : row) : result Z :=
  int (or_ (row_get r "Target Max Cardinality" SNone) (SInt 1)).

(** [f"{src}-{rel}->{tgt}"] *)
Definition edge_name (rel : scalar) (p : string * string) : string :=
  p.1 +:+ "-" +:+ str rel +:+ "->" +:+ p.2.

(** The two places a descriptor names its meta-type. *)
Definition described_by_names (d : value) : option value * option value :=
  (lookup_path d ["described_by"; "$ref"; "type_name"],
   lookup_path d ["spec"; "described_by"; "$ref"; "type_name"]).

(** The [type_kind] literals of the bundle notebook's converters. *)
Definition bundle_kinds : list string :=
  ["HolonType"; "PropertyType"; "RelationshipType"].

(** [descriptor_buckets.get(kind)] *)
Fixpoint bucket_get (bs : Bundle.buckets) (kind : string) : option (list value) :=
  match bs with
  | [] => None
  | (k, items) :: bs' => if String.eqb k kind then Some items else bucket_get bs' kind
  end.

(** The descriptors of a list whose [type_kind] is [kind], in order. *)
Definition of_kind (kind : string) (ds : list value) : list value :=
  filter (λ d, Bundle.type_kind_of d = Ok kind) ds.

(** The names of the files the write loop writes. *)
Definition bucket_files (bs : Bundle.buckets) : list string :=
  Bundle.bucket_file <$> bs.*1.

(** An output directory that holds a file from before the run. *)
Definition used_directory : Bundle.directory := {[ "old.json" := VList [] ]}.

(** A descriptor with its [type_kind] replaced. *)
Definition with_type_kind (kind : string) (d : value) : value :=
  match d with
  | VDict m => VDict (<["type_kind" := VStr kind]> m)
  | _ => d
  end.

(** A descriptor without the [value_type] entry of its [spec]. *)
Definition without_value_type (d : value) : value :=
  match d with
  | VDict m =>
      match m !! "spec" with
      | Some (VDict spec) => VDict (<["spec" := VDict (delete "value_type" spec)]> m)
      | _ => d
      end
  | _ => d
  end.

(** The exception a computation raised, if it raised. *)
Definition raised {A} (m : result A) : option exn :=
  match m with
  | Ok _ => None
  | Raise e => Some e
  end.

(** [c in s] for a character *)
Fixpoint has_char (c : ascii) (s : string) : bool :=
  match s with
  | EmptyString => false
  | String c' r => Ascii.eqb c' c || has_char c r
  end.

(** A token as a list cell leaves it: not empty, no white space around
    it, no comma in it. *)
Definition clean_token (t : string) : Prop :=
  t ≠ "" ∧ strip t = t ∧ has_char "," t = false.

(** The keys of a dict. *)
Definition keys_of (d : value) : gset string :=
  match d with
  | VDict m => dom m
  | _ => ∅
  end.

(** A relationship descriptor without what depends on the pair it was
    made for: its name, its descriptor name and its target. *)
Definition row_part (d : value) : value :=
  match d with
  | VDict m =>
      match m !! "spec" with
      | Some (VDict spec) =>
          VDict (<["spec" :=
                     VDict (delete "descriptor_name"
                              (delete "target_holon_type" spec))]>
                   (delete "type_name" m))
      | _ => d
      end
  | _ => d
  end.

(** What [Deletion Semantic] becomes: no value for a missing cell and for
    a text of white space only, the cell as it is otherwise. *)
Definition deletion_semantic_of (cell : option scalar) : scalar :=
  match cell with
  | None | Some SNone | Some SNaN => SNone
  | Some (SStr s) => if String.eqb (strip s) "" then SNone else SStr s
  | Some v => v
  end.

(** The rows used as examples. *)
Definition member_of_row : row :=
  {[ "Type Name" := SStr "MEMBER_OF";
     "TypeKind" := SStr "RelationshipType";
     "Relationship From" := SStr "Person, Volunteer";
     "Relationship To" := SStr "Team" ]}.

(** The same row with the three target cells left blank in the CSV. *)
Definition blank_cardinality_row : row :=
  <["Target Min Cardinality" := SNaN]>
    (<["Target Max Cardinality" := SNaN]>
       (<["Target Semantic" := SNaN]> member_of_row)).

(** The same row with only [Target Semantic] left blank. *)
Definition blank_semantic_row : row :=
  <["Target Semantic" := SNaN]> member_of_row.

(** The same row with [Relationship From] left blank. *)
Definition blank_from_row : row :=
  <["Relationship From" := SNaN]> member_of_row.

(** The same row with [Has Inverse] left blank. *)
Definition blank_inverse_row : row :=
  <["Has Inverse" := SNaN]> member_of_row.

(** A holon row with label and description left blank. *)
Definition blank_label_row : row :=
  {[ "Type Name" := SStr "Widget";
     "TypeKind" := SStr "HolonType";
     "Label (Human Readable)" := SNaN;
     "Description" := SNaN;
     "MAP PROPERTIES PropertyTypes" := SStr "Color, Size";
     "MAP KEY_PROPERTIES PropertyTypes" := SNaN ]}.

(** A property row without a value type, and one with a value type. *)
Definition color_row : row :=
  {[ "Type Name" := SStr "Color";
     "TypeKind" := SStr "PropertyType" ]}.

Definition typed_color_row : row :=
  <["ValueType (VALUE_TYPE_FOR)" := SStr " StringValue "]> color_row.

(** The member-of row with a minimum of 5 and a maximum of 0. *)
Definition wide_row : row :=
  <["Target Min Cardinality" := SInt 5]>
    (<["Target Max Cardinality" := SInt 0]> member_of_row).

(** The member-of row with a deletion semantic of white space only. *)
Definition blank_deletion_row : row :=
  <["Deletion Semantic" := SStr "  "]> member_of_row.

(** A row of a kind that is exported but has no converter. *)
Definition value_type_row : row :=
  {[ "Type Name" := SStr "StringValue"; "TypeKind" := SStr "ValueType" ]}.

(** The keys of a descriptor and of the header of its spec. *)
Definition wrapper_keys : gset string :=
  {[ "type_name"; "type_kind"; "described_by"; "spec" ]}.
Definition header_keys : gset string :=
  {[ "descriptor_name"; "label"; "description"; "is_dependent";
     "is_value_type"; "described_by"; "is_subtype_of" ]}.
Definition relationship_keys : gset string :=
  {[ "relationship_name"; "source_owns_relationship"; "deletion_semantic";
     "load_links_immediate"; "load_holons_immediate"; "has_inverse";
     "target_holon_type"; "target_semantic"; "target_min_cardinality";
     "target_max_cardinality" ]}.

(** The keys of the spec of a descriptor. *)
Definition spec_keys (d : value) : gset string :=
  from_option keys_of ∅ (item d "spec").

(** A descriptor reduced to its [type_kind]. *)
Definition bare_descriptor (kind : string) : value :=
  VDict {[ "type_kind" := VStr kind ]}.

(** ** Properties *)

(** *** The result monad and the list helpers *)

Lemma mapM_result_total {A B} (f : A → result B) (l : list A) :
  (∀ x, x ∈ l → ∃ y, f x = Ok y) → ∃ ys, mapM f l = Ok ys.
Proof.
  induction l as [|x l IH]; intros Hf; simpl.
  - by eexists.
  - destruct (Hf x) as [y Hy]; [apply list_elem_of_here|].
    destruct IH as [ys Hys].
    { intros z Hz. apply Hf. by apply list_elem_of_further. }
    exists (y :: ys). rewrite Hy. simpl. by rewrite Hys.
Qed.

Lemma mapM_result_Forall2 {A B} (f : A → result B) (l : list A) (ys : list B) :
  mapM f l = Ok ys → Forall2 (λ x y, f x = Ok y) l ys.
Proof.
  revert ys. induction l as [|x l IH]; intros ys; simpl.
  - intros [= <-]. constructor.
  - destruct (f x) as [y|e] eqn:Hy; simpl; [|done].
    destruct (mapM f l) as [ys'|e] eqn:Hys; simpl; [|done].
    intros [= <-]. constructor; [done|]. by apply IH.
Qed.

Lemma Forall2_fmap_eq {A B C} (R : A → B → Prop) (h : B → C) (k : A → C) l ys :
  (∀ x y, R x y → h y = k x) → Forall2 R l ys → h <$> ys = k <$> l.
Proof.
  intros HR. induction 1 as [|x y l ys Hxy _ IH]; [done|].
  rewrite !fmap_cons. f_equal; [by apply HR | done].
Qed.

Lemma length_pair_with {A B} (x : A) (ys : list B) :
  length (y ← ys; [(x, y)]) = length ys.
Proof.
  induction ys as [|y ys IH]; [done|].
  rewrite bind_cons. simpl. by rewrite IH.
Qed.

Lemma length_product {A B} (xs : list A) (ys : list B) :
  length (product xs ys) = (length xs * length ys)%nat.
Proof.
  unfold product. induction xs as [|x xs IH]; [done|].
  rewrite bind_cons, length_app, IH, length_pair_with. done.
Qed.

(** *** The reference builder *)

(** C10: in both notebooks [ref] returns [{"$ref": obj}] where [obj] binds
    [type_name] to the argument as given (no trimming, no check, the empty
    string included), holds the key [schema] exactly when the schema
    argument is truthy, the key [space] exactly when the space argument is
    truthy, and holds no other key; a string argument is truthy exactly
    when it is not empty. *)
Theorem ref_keeps_type_name (tn schema space : scalar) :
  SingleFile.ref tn schema space = Bundle.ref tn schema space
  ∧ (∃ obj : gmap string value,
        Bundle.ref tn schema space = VDict {[ "$ref" := VDict obj ]}
        ∧ obj !! "type_name" = Some (VAtom tn)
        ∧ obj !! "schema" = (if truthy schema then Some (VAtom schema) else None)
        ∧ obj !! "space" = (if truthy space then Some (VAtom space) else None)
        ∧ dom obj ⊆ ({[ "type_name"; "schema"; "space" ]} : gset string))
  ∧ Bundle.ref (SStr "") SNone SNone
    = VDict {[ "$ref" := VDict {[ "type_name" := VStr "" ]} ]}
  ∧ (∀ s, truthy (SStr s) = true ↔ s ≠ "").
Proof.
  split; [reflexivity|]. split; [|split; [reflexivity|]].
  - unfold Bundle.ref. eexists. split; [reflexivity|].
    destruct (truthy schema), (truthy space); repeat split;
      try reflexivity; rewrite ?dom_insert_L, dom_singleton_L; set_solver.
  - intros s. simpl. destruct (String.eqb_spec s ""); simpl; split; congruence.
Qed.

(** *** The relationship expander *)

(** Unfolds a converter up to its first cell access. *)
Ltac enter_converter :=
  unfold Bundle.row_to_relationshiptype, SingleFile.row_to_relationshiptype,
    Bundle.row_to_holontype, SingleFile.row_to_holontype,
    Bundle.row_to_propertytype, SingleFile.row_to_propertytype,
    Bundle.common_header, SingleFile.common_header, row_item.

Ltac step_result := cbn [mbind result_bind mret result_ret fmap result_fmap].

Lemma bundle_relationship_names (r : row) (rel kind : scalar) (tmin tmax : Z) :
  r !! "Type Name" = Some rel →
  r !! "TypeKind" = Some kind →
  target_min_of r = Ok tmin →
  target_max_of r = Ok tmax →
  ∃ outs, Bundle.row_to_relationshiptype r = Ok outs
    ∧ type_names outs
      = (λ p, Some (VStr (edge_name rel p))) <$> product (froms_of r) (tos_of r).
Proof.
  intros Hname Hkind Hmin Hmax. enter_converter.
  unfold target_min_of, target_max_of in *.
  rewrite Hname, Hkind. step_result. rewrite Hmin, Hmax. step_result.
  fold (froms_of r) (tos_of r).
  match goal with |- context [mapM ?f ?l] =>
    destruct (mapM_result_total f l) as [outs Houts] end.
  { intros [src tgt] _. by eexists. }
  exists outs. split; [done|].
  apply mapM_result_Forall2 in Houts.
  eapply Forall2_fmap_eq; [|exact Houts].
  by intros [src tgt] y [= <-].
Qed.

Lemma single_relationship_names (r : row) (rel kind : scalar) (tmin tmax : Z) :
  r !! "Type Name" = Some rel →
  r !! "TypeKind" = Some kind →
  target_min_of r = Ok tmin →
  target_max_of r = Ok tmax →
  ∃ outs, SingleFile.row_to_relationshiptype r = Ok outs
    ∧ type_names outs
      = (λ p, Some (VStr (edge_name rel p))) <$> product (froms_of r) (tos_of r).
Proof.
  intros Hname Hkind Hmin Hmax. enter_converter.
  unfold target_min_of, target_max_of in *.
  rewrite Hname, Hkind. step_result. rewrite Hmin, Hmax. step_result.
  fold (froms_of r) (tos_of r).
  match goal with |- context [mapM ?f ?l] =>
    destruct (mapM_result_total f l) as [outs Houts] end.
  { intros [src tgt] _. by eexists. }
  exists outs. split; [done|].
  apply mapM_result_Forall2 in Houts.
  eapply Forall2_fmap_eq; [|exact Houts].
  by intros [src tgt] y [= <-].
Qed.

(** Whatever the expander returns is named after the pairs, in order. *)
Lemma bundle_relationship_returned (r : row) (outs : list value) :
  Bundle.row_to_relationshiptype r = Ok outs →
  ∃ rel, r !! "Type Name" = Some rel
    ∧ type_names outs
      = (λ p, Some (VStr (edge_name rel p))) <$> product (froms_of r) (tos_of r).
Proof.
  unfold Bundle.row_to_relationshiptype, row_item.
  destruct (r !! "Type Name") as [rel|]; step_result; [|done].
  destruct (int (or_ (row_get r "Target Min Cardinality" SNone) (SInt 0)))
    as [tmin|]; step_result; [|done].
  destruct (int (or_ (row_get r "Target Max Cardinality" SNone) (SInt 1)))
    as [tmax|]; step_result; [|done].
  intros Houts%mapM_result_Forall2. exists rel. split; [done|].
  eapply Forall2_fmap_eq; [|exact Houts].
  intros [src tgt] y. enter_converter.
  destruct (r !! "TypeKind") as [kind|]; step_result; [|done].
  by intros [= <-].
Qed.

Lemma single_relationship_returned (r : row) (outs : list value) :
  SingleFile.row_to_relationshiptype r = Ok outs →
  ∃ rel_name, r !! "Type Name" = Some rel_name
    ∧ type_names outs
      = (λ p, Some (VStr (edge_name rel_name p))) <$> product (froms_of r) (tos_of r).
Proof.
  unfold SingleFile.row_to_relationshiptype, row_item.
  destruct (r !! "Type Name") as [rel|]; step_result; [|done].
  destruct (int (or_ (row_get r "Target Min Cardinality" SNone) (SInt 0)))
    as [tmin|]; step_result; [|done].
  destruct (int (or_ (row_get r "Target Max Cardinality" SNone) (SInt 1)))
    as [tmax|]; step_result; [|done].
  intros Houts%mapM_result_Forall2. exists rel. split; [done|].
  eapply Forall2_fmap_eq; [|exact Houts].
  intros [src tgt] y. enter_converter.
  destruct (r !! "TypeKind") as [kind|]; step_result; [|done].
  by intros [= <-].
Qed.

Lemma type_names_count (outs : list value) (rel : scalar) (froms tos : list string) :
  type_names outs = (λ p, Some (VStr (edge_name rel p))) <$> product froms tos →
  length outs = (length froms * length tos)%nat.
Proof.
  intros H. apply (f_equal length) in H. unfold type_names in H.
  by rewrite !length_fmap, length_product in H.
Qed.

(** The expansion where it is reached: a relationship row whose
    [Type Name] and [TypeKind] cells are there and whose two cardinality
    cells convert is expanded, in both notebooks, into exactly
    |from-list| x |to-list| descriptors, one per pair (src, tgt) of the
    product with the from-list outermost, each named
    [{src}-{relationship_name}->{tgt}]; none when either parsed list is
    empty; and "Person-MEMBER_OF->Team" then "Volunteer-MEMBER_OF->Team"
    for the row MEMBER_OF from "Person, Volunteer" to "Team". *)
Theorem relationship_cross_product (r : row) (rel kind : scalar) (tmin tmax : Z) :
  r !! "Type Name" = Some rel →
  r !! "TypeKind" = Some kind →
  target_min_of r = Ok tmin →
  target_max_of r = Ok tmax →
  ∃ outs outs',
    Bundle.row_to_relationshiptype r = Ok outs
    ∧ SingleFile.row_to_relationshiptype r = Ok outs'
    ∧ length outs = (length (froms_of r) * length (tos_of r))%nat
    ∧ length outs' = (length (froms_of r) * length (tos_of r))%nat
    ∧ type_names outs
      = (λ p, Some (VStr (edge_name rel p))) <$> product (froms_of r) (tos_of r)
    ∧ type_names outs' = type_names outs
    ∧ (froms_of r = [] ∨ tos_of r = [] → outs = [] ∧ outs' = [])
    ∧ (rel = SStr "MEMBER_OF" →
       r !! "Relationship From" = Some (SStr "Person, Volunteer") →
       r !! "Relationship To" = Some (SStr "Team") →
       type_names outs = [ Some (VStr "Person-MEMBER_OF->Team");
                           Some (VStr "Volunteer-MEMBER_OF->Team") ]).
Proof.
  intros Hname Hkind Hmin Hmax.
  destruct (bundle_relationship_names r rel kind tmin tmax) as (outs & Hb & Hn); [done..|].
  destruct (single_relationship_names r rel kind tmin tmax) as (outs' & Hs & Hn'); [done..|].
  pose proof (type_names_count _ _ _ _ Hn) as Hlen.
  pose proof (type_names_count _ _ _ _ Hn') as Hlen'.
  exists outs, outs'. repeat split; try done.
  - congruence.
  - apply nil_length_inv. rewrite Hlen. by destruct H as [-> | ->]; simpl; lia.
  - apply nil_length_inv. rewrite Hlen'. by destruct H as [-> | ->]; simpl; lia.
  - intros -> Hfrom Hto. rewrite Hn. unfold froms_of, tos_of, row_get.
    by rewrite Hfrom, Hto.
Qed.

Lemma relationship_cross_product_witness :
  ∃ outs outs',
    Bundle.row_to_relationshiptype member_of_row = Ok outs
    ∧ SingleFile.row_to_relationshiptype member_of_row = Ok outs'
    ∧ length outs = 2%nat
    ∧ type_names outs' = [ Some (VStr "Person-MEMBER_OF->Team");
                            Some (VStr "Volunteer-MEMBER_OF->Team") ].
Proof.
  destruct (relationship_cross_product member_of_row
              (SStr "MEMBER_OF") (SStr "RelationshipType") 0 1)
    as (outs & outs' & Hb & Hs & Hlen & _ & _ & Hsame & _ & Hex);
    [reflexivity..|].
  exists outs, outs'. repeat split; [done..| |].
  - exact Hlen.
  - rewrite Hsame. by apply Hex.
Defined.

(** C1, at the row MEMBER_OF from "Person, Volunteer" to "Team" whose
    cardinality cells are blank: the parsed lists are Person, Volunteer and
    Team, so that the two descriptors "Person-MEMBER_OF->Team" and
    "Volunteer-MEMBER_OF->Team" are due, but both notebooks raise
    [ValueError] before the expansion and return no descriptor. *)
Theorem blank_cardinality_stops_expansion :
  blank_cardinality_row !! "Type Name" = Some (SStr "MEMBER_OF")
  ∧ blank_cardinality_row !! "TypeKind" = Some (SStr "RelationshipType")
  ∧ froms_of blank_cardinality_row = ["Person"; "Volunteer"]
  ∧ tos_of blank_cardinality_row = ["Team"]
  ∧ Bundle.row_to_relationshiptype blank_cardinality_row = Raise ValueError
  ∧ SingleFile.row_to_relationshiptype blank_cardinality_row = Raise ValueError.
Proof. repeat split; vm_compute; reflexivity. Qed.

(** *** Blank cells of a relationship row *)

(** With the three columns absent from the table the defaults apply. *)
Lemma absent_cardinality_defaults (r : row) (rel kind : scalar) :
  r !! "Type Name" = Some rel →
  r !! "TypeKind" = Some kind →
  r !! "Target Min Cardinality" = None →
  r !! "Target Max Cardinality" = None →
  r !! "Target Semantic" = None →
  ∃ outs, Bundle.row_to_relationshiptype r = Ok outs
    ∧ Forall (λ d,
        lookup_path d ["spec"; "target_min_cardinality"] = Some (VInt 0)
        ∧ lookup_path d ["spec"; "target_max_cardinality"] = Some (VInt 1)
        ∧ lookup_path d ["spec"; "target_semantic"] = Some (VStr "Set")) outs.
Proof.
  intros Hname Hkind Hmin Hmax Hsem. enter_converter. unfold row_get.
  rewrite Hname, Hkind, Hmin, Hmax, Hsem.
  cbn [default or_ truthy int]. step_result.
  match goal with |- context [mapM ?f ?l] =>
    destruct (mapM_result_total f l) as [outs Houts] end.
  { intros [src tgt] _. by eexists. }
  exists outs. split; [done|].
  apply mapM_result_Forall2 in Houts.
  induction Houts as [|[src tgt] y l ys Hy _ IH]; constructor; [|done].
  by injection Hy as <-.
Qed.

(** A blank [Target Min Cardinality] cell makes the expander raise. *)
Lemma blank_min_cardinality_raises (r : row) :
  is_Some (r !! "Type Name") →
  r !! "Target Min Cardinality" = Some SNaN →
  Bundle.row_to_relationshiptype r = Raise ValueError
  ∧ SingleFile.row_to_relationshiptype r = Raise ValueError.
Proof.
  intros [rel Hname] Hmin. enter_converter. unfold row_get.
  by rewrite Hname, Hmin.
Qed.

(** C2, at a row with blank target cells: with the three cells blank both
    notebooks raise [ValueError] instead of returning descriptors with the
    defaults 0, 1 and "Set"; with only [Target Semantic] blank the two
    descriptors carry NaN as [target_semantic], not "Set". *)
Theorem blank_cardinality_cells_raise :
  Bundle.row_to_relationshiptype blank_cardinality_row = Raise ValueError
  ∧ SingleFile.row_to_relationshiptype blank_cardinality_row = Raise ValueError
  ∧ each_path ["spec"; "target_semantic"]
      (Bundle.row_to_relationshiptype blank_semantic_row)
    = Ok [Some (VAtom SNaN); Some (VAtom SNaN)]
  ∧ each_path ["spec"; "target_semantic"]
      (SingleFile.row_to_relationshiptype blank_semantic_row)
    = Ok [Some (VAtom SNaN); Some (VAtom SNaN)].
Proof. repeat split; vm_compute; reflexivity. Qed.

(** *** List-valued cells *)

Lemma strip_tokens_nonempty (s t : string) : t ∈ strip_tokens s → t ≠ "".
Proof.
  unfold strip_tokens. intros (p & Ht & _)%list_elem_of_bind.
  simpl in Ht. destruct (String.eqb_spec (strip p) ""); simpl in Ht.
  - by apply elem_of_nil in Ht.
  - apply list_elem_of_singleton in Ht. by subst.
Qed.

(** A holon row's two list cells: empty when [pd.isna] holds of the cell,
    the stripped non-empty tokens of its text otherwise. *)
Lemma holon_list_cells (r : row) (name kind : scalar) :
  r !! "Type Name" = Some name →
  r !! "TypeKind" = Some kind →
  let cells k := row_get r k (SStr "") in
  let parsed v := VList (if isna v then [] else VStr <$> strip_tokens (str v)) in
  ∃ d d', Bundle.row_to_holontype r = Ok d
    ∧ SingleFile.row_to_holontype r = Ok d'
    ∧ lookup_path d ["spec"; "properties"]
      = Some (parsed (cells "MAP PROPERTIES PropertyTypes"))
    ∧ lookup_path d ["spec"; "key_properties"]
      = Some (parsed (cells "MAP KEY_PROPERTIES PropertyTypes"))
    ∧ lookup_path d' ["spec"; "properties"]
      = Some (parsed (cells "MAP PROPERTIES PropertyTypes"))
    ∧ lookup_path d' ["spec"; "key_properties"]
      = Some (parsed (cells "MAP KEY_PROPERTIES PropertyTypes")).
Proof.
  intros Hname Hkind cells parsed. enter_converter.
  rewrite Hname, Hkind. step_result.
  eexists _, _. repeat split; reflexivity.
Qed.

(** C4, at a relationship row whose [Relationship From] cell is blank: the
    text "A, B,,C ," parses to A, B, C and a holon row's blank list cell
    parses to the empty list, but the blank [Relationship From] cell parses
    to the one-element list ["nan"], so that the row yields the descriptor
    "nan-MEMBER_OF->Team" instead of none. *)
Theorem blank_relationship_from_parses_to_nan :
  strip_tokens "A, B,,C ," = ["A"; "B"; "C"]
  ∧ strip_tokens "" = []
  ∧ each_path ["spec"; "key_properties"]
      ((λ d, [d]) <$> Bundle.row_to_holontype blank_label_row)
    = Ok [Some (VList [])]
  ∧ froms_of blank_from_row = ["nan"]
  ∧ type_names <$> Bundle.row_to_relationshiptype blank_from_row
    = Ok [Some (VStr "nan-MEMBER_OF->Team")]
  ∧ type_names <$> SingleFile.row_to_relationshiptype blank_from_row
    = Ok [Some (VStr "nan-MEMBER_OF->Team")].
Proof. repeat split; vm_compute; reflexivity. Qed.

(** *** The inverse of a relationship *)

Lemma or_none_truthy (v : scalar) : truthy (or_ v SNone) = truthy v.
Proof. unfold or_. by destruct (truthy v) eqn:Hv. Qed.

Lemma or_none_id (v : scalar) : truthy v = true → or_ v SNone = v.
Proof. unfold or_. by intros ->. Qed.

(** What [has_inverse] holds in every descriptor of a row: no value when
    the column is absent or the cell is falsy, a reference to the cell
    otherwise. *)
Lemma has_inverse_field (r : row) (rel kind : scalar) (tmin tmax : Z) :
  r !! "Type Name" = Some rel →
  r !! "TypeKind" = Some kind →
  target_min_of r = Ok tmin →
  target_max_of r = Ok tmax →
  ∃ outs, Bundle.row_to_relationshiptype r = Ok outs
    ∧ Forall (λ d,
        lookup_path d ["spec"; "has_inverse"]
        = Some (match r !! "Has Inverse" with
                | Some cell =>
                    if truthy cell then Bundle.ref cell SNone SNone else VNone
                | None => VNone
                end)) outs.
Proof.
  intros Hname Hkind Hmin Hmax. enter_converter.
  unfold target_min_of, target_max_of in *.
  rewrite Hname, Hkind. step_result. rewrite Hmin, Hmax. step_result.
  match goal with |- context [mapM ?f ?l] =>
    destruct (mapM_result_total f l) as [outs Houts] end.
  { intros [src tgt] _. by eexists. }
  exists outs. split; [done|].
  apply mapM_result_Forall2 in Houts.
  induction Houts as [|[src tgt] y l ys Hy _ IH]; constructor; [|done].
  injection Hy as <-. unfold row_get.
  destruct (r !! "Has Inverse") as [cell|]; [|reflexivity].
  change (default SNone (Some cell)) with cell.
  rewrite or_none_truthy. destruct (truthy cell) eqn:Hcell; [|reflexivity].
  by rewrite or_none_id.
Qed.

(** C6, at a relationship row whose [Has Inverse] cell is blank: each of
    the two descriptors carries, as [has_inverse], a reference whose
    [type_name] is NaN, instead of no value. *)
Theorem blank_has_inverse_becomes_reference :
  each_path ["spec"; "has_inverse"]
    (Bundle.row_to_relationshiptype blank_inverse_row)
  = Ok (replicate 2 (Some (VDict {[ "$ref" := VDict {[ "type_name" := VAtom SNaN ]} ]})))
  ∧ each_path ["spec"; "has_inverse"]
      (SingleFile.row_to_relationshiptype blank_inverse_row)
    = Ok (replicate 2 (Some (VDict {[ "$ref" := VDict {[ "type_name" := VAtom SNaN ]} ]}))).
Proof. split; vm_compute; reflexivity. Qed.

(** *** The common header *)

(** What [label] and [description] hold: the cell when it is truthy, the
    empty string when the column is absent or the cell is falsy. *)
Lemma header_label_description (r : row) (kind : scalar) (descriptor_name : string) :
  r !! "TypeKind" = Some kind →
  let text k :=
    match r !! k with
    | Some cell => if truthy cell then cell else SStr ""
    | None => SStr ""
    end in
  ∃ spec, Bundle.common_header r descriptor_name = Ok spec
    ∧ SingleFile.common_header r descriptor_name = Ok spec
    ∧ spec !! "label" = Some (VAtom (text "Label (Human Readable)"))
    ∧ spec !! "description" = Some (VAtom (text "Description")).
Proof.
  intros Hkind text. enter_converter. rewrite Hkind. step_result.
  eexists. split; [reflexivity|]. split; [reflexivity|].
  unfold text, row_get, or_.
  destruct (r !! "Label (Human Readable)") as [l|], (r !! "Description") as [d|];
    cbn [default]; split; try reflexivity;
    try (destruct (truthy l); reflexivity); destruct (truthy d); reflexivity.
Qed.

(** C7, at a holon row whose label and description cells are blank: the
    header, and the descriptor of both notebooks, carry NaN as [label] and
    as [description], not the empty string. *)
Theorem blank_label_stays_nan :
  (λ spec : gmap string value, (spec !! "label", spec !! "description"))
    <$> Bundle.common_header blank_label_row "WidgetDescriptor"
  = Ok (Some (VAtom SNaN), Some (VAtom SNaN))
  ∧ (λ spec : gmap string value, (spec !! "label", spec !! "description"))
      <$> SingleFile.common_header blank_label_row "WidgetDescriptor"
    = Ok (Some (VAtom SNaN), Some (VAtom SNaN))
  ∧ (λ d, (lookup_path d ["spec"; "label"], lookup_path d ["spec"; "description"]))
      <$> Bundle.row_to_holontype blank_label_row
    = Ok (Some (VAtom SNaN), Some (VAtom SNaN))
  ∧ (λ d, (lookup_path d ["spec"; "label"], lookup_path d ["spec"; "description"]))
      <$> SingleFile.row_to_holontype blank_label_row
    = Ok (Some (VAtom SNaN), Some (VAtom SNaN)).
Proof. repeat split; vm_compute; reflexivity. Qed.

(** *** The value type of a property *)

(** C3, as stated, fails in the single-file notebook: for a property row
    without a value type the conversion returns a descriptor whose
    [value_type] is a reference built from the empty string, not the
    absent value. *)
Lemma single_file_references_empty_value_type :
  ∃ d, SingleFile.row_to_propertytype color_row = Ok d
    ∧ lookup_path d ["spec"; "value_type"]
      = Some (VDict {[ "$ref" := VDict {[ "type_name" := VStr "" ]} ]})
    ∧ lookup_path d ["spec"; "value_type"] ≠ Some VNone.
Proof. eexists. split; [reflexivity|]. split; [reflexivity|]. by vm_compute. Qed.

(** C3, amended: for a property row whose [Type Name] and [TypeKind] cells
    are there and whose value-type cell is a string, or whose value-type
    column is absent (the empty string then stands for the cell), neither
    notebook raises; with [name] the trimmed cell, the bundle notebook
    sets [value_type] to a reference to [name] when [name] is not empty
    and to the absent value when it is, and the single-file notebook sets
    it to a reference to [name] in both cases. *)
Theorem property_value_type (r : row) (name kind : scalar) (cell : string) :
  r !! "Type Name" = Some name →
  r !! "TypeKind" = Some kind →
  row_get r "ValueType (VALUE_TYPE_FOR)" (SStr "") = SStr cell →
  ∃ d d',
    Bundle.row_to_propertytype r = Ok d
    ∧ SingleFile.row_to_propertytype r = Ok d'
    ∧ lookup_path d ["spec"; "value_type"]
      = Some (if String.eqb (strip cell) "" then VNone
              else VDict {[ "$ref" := VDict {[ "type_name" := VStr (strip cell) ]} ]})
    ∧ lookup_path d' ["spec"; "value_type"]
      = Some (VDict {[ "$ref" := VDict {[ "type_name" := VStr (strip cell) ]} ]}).
Proof.
  intros Hname Hkind Hcell. enter_converter.
  rewrite Hname, Hkind, Hcell. step_result. cbn [strip_method]. step_result.
  eexists _, _. split; [reflexivity|]. split; [reflexivity|].
  cbn [truthy]. split; [|reflexivity].
  by destruct (String.eqb (strip cell) "").
Qed.

Lemma property_value_type_witness :
  (∃ d d',
      Bundle.row_to_propertytype color_row = Ok d
      ∧ SingleFile.row_to_propertytype color_row = Ok d'
      ∧ lookup_path d ["spec"; "value_type"] = Some VNone
      ∧ lookup_path d' ["spec"; "value_type"]
        = Some (VDict {[ "$ref" := VDict {[ "type_name" := VStr "" ]} ]}))
  ∧ (∃ d d',
      Bundle.row_to_propertytype typed_color_row = Ok d
      ∧ SingleFile.row_to_propertytype typed_color_row = Ok d'
      ∧ lookup_path d ["spec"; "value_type"]
        = Some (VDict {[ "$ref" := VDict {[ "type_name" := VStr "StringValue" ]} ]})
      ∧ lookup_path d' ["spec"; "value_type"]
        = Some (VDict {[ "$ref" := VDict {[ "type_name" := VStr "StringValue" ]} ]})).
Proof.
  split.
  - exact (property_value_type color_row (SStr "Color") (SStr "PropertyType") ""
             eq_refl eq_refl eq_refl).
  - exact (property_value_type typed_color_row (SStr "Color") (SStr "PropertyType")
             " StringValue " eq_refl eq_refl eq_refl).
Defined.

(** A blank value-type cell has no [strip] method: both notebooks raise. *)
Lemma blank_value_type_raises (r : row) :
  is_Some (r !! "Type Name") →
  is_Some (r !! "TypeKind") →
  r !! "ValueType (VALUE_TYPE_FOR)" = Some SNaN →
  Bundle.row_to_propertytype r = Raise AttributeError
  ∧ SingleFile.row_to_propertytype r = Raise AttributeError.
Proof.
  intros [name Hname] [kind Hkind] Hcell. enter_converter. unfold row_get.
  by rewrite Hname, Hkind, Hcell.
Qed.

(** *** The two notebooks side by side *)

Lemma mapM_result_fmap {A B} (f f' : A → result B) (g : B → B) (l : list A) :
  (∀ x, f' x = g <$> f x) →
  mapM f' l = fmap (M:=result) (fmap (M:=list) g) (mapM f l).
Proof.
  intros Hf. induction l as [|x l IH]; [done|].
  simpl. rewrite Hf, IH.
  destruct (f x) as [y|e]; simpl; [|done].
  by destruct (mapM f l).
Qed.

Lemma has_inverse_default_same (r : row) :
  or_ (row_get r "Has Inverse" (SStr "")) SNone
  = or_ (row_get r "Has Inverse" SNone) SNone.
Proof. unfold row_get. by destruct (r !! "Has Inverse"). Qed.

Lemma deletion_test_same (v : scalar) :
  isna v || String.eqb (strip (str v)) ""
  = isna v || negb (truthy (SStr (strip (str v)))).
Proof. cbn [truthy]. by rewrite negb_involutive. Qed.

Lemma holon_same_but_kind (r : row) :
  SingleFile.row_to_holontype r
  = with_type_kind "Holon" <$> Bundle.row_to_holontype r.
Proof.
  enter_converter.
  destruct (r !! "Type Name") as [name|]; step_result; [|done].
  destruct (r !! "TypeKind") as [kind|]; step_result; [|done].
  reflexivity.
Qed.

Lemma relationship_same_but_kind (r : row) :
  SingleFile.row_to_relationshiptype r
  = fmap (M:=result) (fmap (M:=list) (with_type_kind "Relationship"))
      (Bundle.row_to_relationshiptype r).
Proof.
  unfold Bundle.row_to_relationshiptype, SingleFile.row_to_relationshiptype, row_item.
  rewrite has_inverse_default_same, deletion_test_same.
  destruct (r !! "Type Name") as [rel|]; step_result; [|done].
  destruct (int (or_ (row_get r "Target Min Cardinality" SNone) (SInt 0)))
    as [tmin|]; step_result; [|done].
  destruct (int (or_ (row_get r "Target Max Cardinality" SNone) (SInt 1)))
    as [tmax|]; step_result; [|done].
  apply mapM_result_fmap. intros [src tgt].
  enter_converter. destruct (r !! "TypeKind") as [kind|]; step_result; [|done].
  reflexivity.
Qed.

Lemma property_same_but_kind_and_value_type (r : row) :
  without_value_type <$> SingleFile.row_to_propertytype r
  = (λ d, without_value_type (with_type_kind "Property" d))
      <$> Bundle.row_to_propertytype r.
Proof.
  enter_converter.
  destruct (r !! "Type Name") as [name|]; step_result; [|done].
  destruct (r !! "TypeKind") as [kind|]; step_result; [|done].
  destruct (strip_method _) as [ref_val|]; step_result; [|done].
  destruct (truthy (SStr ref_val)); reflexivity.
Qed.

Lemma property_same_but_kind (r : row) (cell : string) :
  row_get r "ValueType (VALUE_TYPE_FOR)" (SStr "") = SStr cell →
  strip cell ≠ "" →
  SingleFile.row_to_propertytype r
  = with_type_kind "Property" <$> Bundle.row_to_propertytype r.
Proof.
  intros Hcell Hne. enter_converter. rewrite Hcell.
  destruct (r !! "Type Name") as [name|]; step_result; [|done].
  destruct (r !! "TypeKind") as [kind|]; step_result; [|done].
  cbn [strip_method]. step_result. cbn [truthy].
  destruct (String.eqb_spec (strip cell) ""); [done|]. reflexivity.
Qed.

(** C5, as stated, fails on a property row without a value type: both
    notebooks return a descriptor, and the two differ in more than the
    [type_kind] literal. *)
Lemma property_descriptors_differ_beyond_kind :
  ∃ d d',
    Bundle.row_to_propertytype color_row = Ok d
    ∧ SingleFile.row_to_propertytype color_row = Ok d'
    ∧ d' ≠ with_type_kind "Property" d
    ∧ lookup_path d ["spec"; "value_type"] = Some VNone
    ∧ lookup_path d' ["spec"; "value_type"]
      = Some (VDict {[ "$ref" := VDict {[ "type_name" := VStr "" ]} ]}).
Proof.
  eexists _, _. split; [reflexivity|]. split; [reflexivity|].
  split; [|split; reflexivity].
  intros Heq.
  apply (f_equal (λ v, lookup_path v ["spec"; "value_type"])) in Heq.
  vm_compute in Heq. discriminate Heq.
Qed.

(** C5, amended: on every row the holon converters of the two notebooks,
    and their relationship converters, raise alike or return descriptors
    that are identical except for [type_kind] ("Holon", "Relationship"
    in the single-file notebook for "HolonType", "RelationshipType" in the
    bundle notebook); their property converters raise alike or return
    descriptors identical except for [type_kind] ("Property" for
    "PropertyType") and for the [value_type] of the spec, which is
    identical too when the value-type cell trims to a non-empty string. *)
Theorem converters_agree_but_kind (r : row) :
  SingleFile.row_to_holontype r
  = with_type_kind "Holon" <$> Bundle.row_to_holontype r
  ∧ (∀ d, Bundle.row_to_holontype r = Ok d →
          item d "type_kind" = Some (VStr "HolonType"))
  ∧ SingleFile.row_to_relationshiptype r
    = fmap (M:=result) (fmap (M:=list) (with_type_kind "Relationship"))
        (Bundle.row_to_relationshiptype r)
  ∧ (∀ ds, Bundle.row_to_relationshiptype r = Ok ds →
           Forall (λ d, item d "type_kind" = Some (VStr "RelationshipType")) ds)
  ∧ without_value_type <$> SingleFile.row_to_propertytype r
    = (λ d, without_value_type (with_type_kind "Property" d))
        <$> Bundle.row_to_propertytype r
  ∧ (∀ d, Bundle.row_to_propertytype r = Ok d →
          item d "type_kind" = Some (VStr "PropertyType"))
  ∧ (∀ cell,
       row_get r "ValueType (VALUE_TYPE_FOR)" (SStr "") = SStr cell →
       strip cell ≠ "" →
       SingleFile.row_to_propertytype r
       = with_type_kind "Property" <$> Bundle.row_to_propertytype r).
Proof.
  split; [apply holon_same_but_kind|].
  split.
  { enter_converter. intros d.
    destruct (r !! "Type Name") as [name|]; step_result; [|done].
    destruct (r !! "TypeKind") as [kind|]; step_result; [|done].
    by intros [= <-]. }
  split; [apply relationship_same_but_kind|].
  split.
  { unfold Bundle.row_to_relationshiptype, row_item. intros ds.
    destruct (r !! "Type Name") as [rel|]; step_result; [|done].
    destruct (int (or_ (row_get r "Target Min Cardinality" SNone) (SInt 0)))
      as [tmin|]; step_result; [|done].
    destruct (int (or_ (row_get r "Target Max Cardinality" SNone) (SInt 1)))
      as [tmax|]; step_result; [|done].
    intros Hds%mapM_result_Forall2.
    induction Hds as [|[src tgt] y l ys Hy _ IH]; constructor; [|done].
    revert Hy. enter_converter.
    destruct (r !! "TypeKind") as [kind|]; step_result; [|done].
    by intros [= <-]. }
  split; [apply property_same_but_kind_and_value_type|].
  split; [|apply property_same_but_kind].
  enter_converter. intros d.
  destruct (r !! "Type Name") as [name|]; step_result; [|done].
  destruct (r !! "TypeKind") as [kind|]; step_result; [|done].
  destruct (strip_method _) as [ref_val|]; step_result; [|done].
  by intros [= <-].
Qed.

Lemma converters_agree_but_kind_witness :
  SingleFile.row_to_propertytype typed_color_row
  = with_type_kind "Property" <$> Bundle.row_to_propertytype typed_color_row
  ∧ each_path ["type_kind"] (SingleFile.row_to_relationshiptype member_of_row)
    = Ok [Some (VStr "Relationship"); Some (VStr "Relationship")].
Proof.
  destruct (converters_agree_but_kind typed_color_row)
    as (_ & _ & _ & _ & _ & _ & Hproperty).
  destruct (converters_agree_but_kind member_of_row)
    as (_ & _ & Hrelationship & _).
  split.
  - apply (Hproperty " StringValue "); [reflexivity | by vm_compute].
  - rewrite Hrelationship. reflexivity.
Defined.

(** *** The row-dispatch drivers *)

Lemma Forall2_elem_of_r {A B} (R : A → B → Prop) (l : list A) (ys : list B) (y : B) :
  Forall2 R l ys → y ∈ ys → ∃ x, x ∈ l ∧ R x y.
Proof.
  induction 1 as [|x y' l ys Hxy _ IH]; intros Hy.
  - by apply elem_of_nil in Hy.
  - apply elem_of_cons in Hy as [-> | Hy].
    + exists x. split; [apply list_elem_of_here | done].
    + destruct (IH Hy) as (x' & Hx' & HR). exists x'.
      split; [by apply list_elem_of_further | done].
Qed.

(** What one turn of the bundle loop appends comes from the row alone. *)
Lemma bundle_convert_row_described_by (r : row) (out : list value) (d : value) :
  Bundle.convert_row [] r = Ok out →
  d ∈ out →
  ∃ kind, r !! "TypeKind" = Some (SStr kind)
    ∧ described_by_names d = (Some (VStr kind), Some (VStr kind)).
Proof.
  unfold Bundle.convert_row, row_item.
  destruct (r !! "TypeKind") as [kind|] eqn:Hkind; step_result; [|done].
  destruct (negb _).
  { intros [= <-] Hd. by apply elem_of_nil in Hd. }
  repeat case_bool_decide; subst.
  - enter_converter. rewrite Hkind.
    destruct (r !! "Type Name") as [name|]; step_result; [|done].
    intros [= <-] ->%list_elem_of_singleton. by exists "HolonType".
  - enter_converter. rewrite Hkind.
    destruct (r !! "Type Name") as [name|]; step_result; [|done].
    destruct (strip_method _) as [ref_val|]; step_result; [|done].
    intros [= <-] ->%list_elem_of_singleton. by exists "PropertyType".
  - unfold Bundle.row_to_relationshiptype, row_item.
    destruct (r !! "Type Name") as [rel|]; step_result; [|done].
    destruct (int (or_ (row_get r "Target Min Cardinality" SNone) (SInt 0)))
      as [tmin|]; step_result; [|done].
    destruct (int (or_ (row_get r "Target Max Cardinality" SNone) (SInt 1)))
      as [tmax|]; step_result; [|done].
    destruct (mapM _ _) as [ds|] eqn:Hds; step_result; [|done].
    intros [= <-] Hd. apply mapM_result_Forall2 in Hds.
    destruct (Forall2_elem_of_r _ _ _ _ Hds Hd) as ([src tgt] & _ & Hy).
    revert Hy. enter_converter. rewrite Hkind. step_result.
    intros [= <-]. by exists "RelationshipType".
  - intros [= <-] Hd. by apply elem_of_nil in Hd.
Qed.

Lemma single_convert_row_described_by (r : row) (out : list value) (d : value) :
  SingleFile.convert_row [] r = Ok out →
  d ∈ out →
  ∃ kind, r !! "TypeKind" = Some (SStr kind)
    ∧ described_by_names d = (Some (VStr kind), Some (VStr kind)).
Proof.
  unfold SingleFile.convert_row, row_item.
  destruct (r !! "TypeKind") as [kind|] eqn:Hkind; step_result; [|done].
  destruct (negb _).
  { intros [= <-] Hd. by apply elem_of_nil in Hd. }
  repeat case_bool_decide; subst.
  - enter_converter. rewrite Hkind.
    destruct (r !! "Type Name") as [name|]; step_result; [|done].
    intros [= <-] ->%list_elem_of_singleton. by exists "HolonType".
  - enter_converter. rewrite Hkind.
    destruct (r !! "Type Name") as [name|]; step_result; [|done].
    destruct (strip_method _) as [ref_val|]; step_result; [|done].
    intros [= <-] ->%list_elem_of_singleton. by exists "PropertyType".
  - unfold SingleFile.row_to_relationshiptype, row_item.
    destruct (r !! "Type Name") as [rel|]; step_result; [|done].
    destruct (int (or_ (row_get r "Target Min Cardinality" SNone) (SInt 0)))
      as [tmin|]; step_result; [|done].
    destruct (int (or_ (row_get r "Target Max Cardinality" SNone) (SInt 1)))
      as [tmax|]; step_result; [|done].
    destruct (mapM _ _) as [ds|] eqn:Hds; step_result; [|done].
    intros [= <-] Hd. apply mapM_result_Forall2 in Hds.
    destruct (Forall2_elem_of_r _ _ _ _ Hds Hd) as ([src tgt] & _ & Hy).
    revert Hy. enter_converter. rewrite Hkind. step_result.
    intros [= <-]. by exists "RelationshipType".
  - intros [= <-] Hd. by apply elem_of_nil in Hd.
Qed.

Lemma bundle_convert_row_acc (acc : list value) (r : row) :
  Bundle.convert_row acc r = (acc ++.) <$> Bundle.convert_row [] r.
Proof.
  unfold Bundle.convert_row.
  destruct (row_item r "TypeKind") as [kind|]; step_result; [|done].
  destruct (negb _); [step_result; by rewrite app_nil_r|].
  destruct (bool_decide _); [by destruct (Bundle.row_to_holontype r)|].
  destruct (bool_decide _); [by destruct (Bundle.row_to_propertytype r)|].
  destruct (bool_decide _); [by destruct (Bundle.row_to_relationshiptype r)|].
  step_result. by rewrite app_nil_r.
Qed.

Lemma single_convert_row_acc (acc : list value) (r : row) :
  SingleFile.convert_row acc r = (acc ++.) <$> SingleFile.convert_row [] r.
Proof.
  unfold SingleFile.convert_row.
  destruct (row_item r "TypeKind") as [kind|]; step_result; [|done].
  destruct (negb _); [step_result; by rewrite app_nil_r|].
  destruct (bool_decide _); [by destruct (SingleFile.row_to_holontype r)|].
  destruct (bool_decide _); [by destruct (SingleFile.row_to_propertytype r)|].
  destruct (bool_decide _); [by destruct (SingleFile.row_to_relationshiptype r)|].
  step_result. by rewrite app_nil_r.
Qed.

(** Every descriptor the loop returns was there before or was appended at
    the turn of some row. *)
Lemma bundle_convert_rows_origin (rows : list row) (acc ds : list value) (d : value) :
  Bundle.convert_rows acc rows = Ok ds →
  d ∈ ds →
  d ∈ acc ∨ ∃ r out, r ∈ rows ∧ Bundle.convert_row [] r = Ok out ∧ d ∈ out.
Proof.
  revert acc. induction rows as [|r rows IH]; intros acc; simpl.
  - intros [= <-] Hd. by left.
  - rewrite bundle_convert_row_acc.
    destruct (Bundle.convert_row [] r) as [out|] eqn:Hout; simpl; [|done].
    intros Hds Hd. destruct (IH _ Hds Hd) as [Hacc | (r' & out' & Hr' & Hout' & Hd')].
    + apply elem_of_app in Hacc as [Hacc | Hnew]; [by left|].
      right. exists r, out. split; [apply list_elem_of_here | done].
    + right. exists r', out'. split; [by apply list_elem_of_further | done].
Qed.

Lemma single_convert_rows_origin (rows : list row) (acc ds : list value) (d : value) :
  SingleFile.convert_rows acc rows = Ok ds →
  d ∈ ds →
  d ∈ acc ∨ ∃ r out, r ∈ rows ∧ SingleFile.convert_row [] r = Ok out ∧ d ∈ out.
Proof.
  revert acc. induction rows as [|r rows IH]; intros acc; simpl.
  - intros [= <-] Hd. by left.
  - rewrite single_convert_row_acc.
    destruct (SingleFile.convert_row [] r) as [out|] eqn:Hout; simpl; [|done].
    intros Hds Hd. destruct (IH _ Hds Hd) as [Hacc | (r' & out' & Hr' & Hout' & Hd')].
    + apply elem_of_app in Hacc as [Hacc | Hnew]; [by left|].
      right. exists r, out. split; [apply list_elem_of_here | done].
    + right. exists r', out'. split; [by apply list_elem_of_further | done].
Qed.

(** C9: every descriptor either notebook generates from a table comes from
    a row of the table whose [TypeKind] cell is a string, and the
    [type_name] of its [described_by] reference, on the wrapper and in the
    spec header alike, is that string. *)
Theorem described_by_is_row_kind (df : list row) (ds : list value) (d : value) :
  Bundle.all_desc df = Ok ds ∨ SingleFile.descriptors df = Ok ds →
  d ∈ ds →
  ∃ r kind,
    r ∈ df
    ∧ r !! "TypeKind" = Some (SStr kind)
    ∧ (∃ out, d ∈ out
         ∧ (Bundle.convert_row [] r = Ok out ∨ SingleFile.convert_row [] r = Ok out))
    ∧ lookup_path d ["described_by"; "$ref"; "type_name"] = Some (VStr kind)
    ∧ lookup_path d ["spec"; "described_by"; "$ref"; "type_name"] = Some (VStr kind).
Proof.
  intros [Hds | Hds] Hd.
  - destruct (bundle_convert_rows_origin _ _ _ _ Hds Hd)
      as [Hnil | (r & out & Hr & Hout & Hdout)]; [by apply elem_of_nil in Hnil|].
    destruct (bundle_convert_row_described_by _ _ _ Hout Hdout) as (kind & Hkind & Hnames).
    injection Hnames as Hwrapper Hspec.
    exists r, kind. repeat split; [done..| |done|done].
    exists out. split; [done | by left].
  - destruct (single_convert_rows_origin _ _ _ _ Hds Hd)
      as [Hnil | (r & out & Hr & Hout & Hdout)]; [by apply elem_of_nil in Hnil|].
    destruct (single_convert_row_described_by _ _ _ Hout Hdout) as (kind & Hkind & Hnames).
    injection Hnames as Hwrapper Hspec.
    exists r, kind. repeat split; [done..| |done|done].
    exists out. split; [done | by right].
Qed.

Lemma described_by_is_row_kind_witness :
  ∃ d,
    Bundle.all_desc [color_row] = Ok [d]
    ∧ ∃ r kind,
        r ∈ [color_row]
        ∧ r !! "TypeKind" = Some (SStr kind)
        ∧ (∃ out, d ∈ out
             ∧ (Bundle.convert_row [] r = Ok out
                ∨ SingleFile.convert_row [] r = Ok out))
        ∧ lookup_path d ["described_by"; "$ref"; "type_name"] = Some (VStr kind)
        ∧ lookup_path d ["spec"; "described_by"; "$ref"; "type_name"]
          = Some (VStr kind).
Proof.
  destruct (Bundle.all_desc [color_row]) as [[|d []]|] eqn:Hds;
    try (vm_compute in Hds; discriminate Hds).
  exists d. split; [reflexivity|].
  apply (described_by_is_row_kind [color_row] [d] d (or_introl Hds)).
  apply list_elem_of_here.
Defined.

(** *** Buckets, bucket files and the manifest *)

Lemma bucket_get_setdefault (kind : string) (d : value) (bs : Bundle.buckets) (k : string) :
  bucket_get (Bundle.setdefault_append kind d bs) k
  = if String.eqb kind k then Some (default [] (bucket_get bs kind) ++ [d])
    else bucket_get bs k.
Proof.
  induction bs as [|[k0 items] bs IH]; simpl.
  - by destruct (String.eqb kind k).
  - destruct (String.eqb_spec k0 kind) as [-> | Hne]; simpl.
    + by destruct (String.eqb_spec kind k).
    + rewrite IH. destruct (String.eqb_spec kind k) as [Heq | Hne']; [|done].
      rewrite <- Heq. by destruct (String.eqb_spec k0 kind).
Qed.

Lemma setdefault_append_keys (kind : string) (d : value) (bs : Bundle.buckets) :
  (Bundle.setdefault_append kind d bs).*1
  = if bool_decide (kind ∈ bs.*1) then bs.*1 else bs.*1 ++ [kind].
Proof.
  induction bs as [|[k0 items] bs IH].
  - rewrite bool_decide_false; [done | apply not_elem_of_nil].
  - cbn [Bundle.setdefault_append].
    destruct (String.eqb_spec k0 kind) as [-> | Hne]; rewrite !fmap_cons; cbn [fst].
    + rewrite bool_decide_true; [done | apply list_elem_of_here].
    + rewrite IH. case_bool_decide as Hin.
      * rewrite bool_decide_true; [done | by apply list_elem_of_further].
      * rewrite bool_decide_false; [done|].
        intros [? | ?]%elem_of_cons; congruence.
Qed.

Lemma setdefault_append_NoDup (kind : string) (d : value) (bs : Bundle.buckets) :
  NoDup bs.*1 → NoDup (Bundle.setdefault_append kind d bs).*1.
Proof.
  intros Hbs. rewrite setdefault_append_keys. case_bool_decide as Hin; [done|].
  apply NoDup_app. split; [done|]. split; [|apply NoDup_singleton].
  intros k Hk ->%list_elem_of_singleton. done.
Qed.

Lemma bucket_get_elem_of (bs : Bundle.buckets) (k : string) (items : list value) :
  bucket_get bs k = Some items → (k, items) ∈ bs.
Proof.
  induction bs as [|[k0 items0] bs IH]; simpl; [done|].
  destruct (String.eqb_spec k0 k) as [-> | Hne].
  - intros [= ->]. apply list_elem_of_here.
  - intros H. by apply list_elem_of_further, IH.
Qed.

Lemma elem_of_bucket_get (bs : Bundle.buckets) (k : string) (items : list value) :
  NoDup bs.*1 → (k, items) ∈ bs → bucket_get bs k = Some items.
Proof.
  induction bs as [|[k0 items0] bs IH]; simpl.
  - intros _ H. by apply elem_of_nil in H.
  - intros [Hk0 Hbs]%NoDup_cons [[= -> ->] | Hin]%elem_of_cons.
    + by rewrite String.eqb_refl.
    + destruct (String.eqb_spec k0 k) as [-> | Hne]; [|by apply IH].
      exfalso. apply Hk0. apply list_elem_of_fmap. by exists (k, items).
Qed.

(** Grouping never raises on descriptors that carry a string [type_kind],
    keeps the keys distinct, and the bucket of a kind is what it held
    before followed by the descriptors of that kind, in order. *)
Lemma bucket_all_spec (ds : list value) (bs : Bundle.buckets) :
  (∀ d, d ∈ ds → ∃ kind, Bundle.type_kind_of d = Ok kind) →
  NoDup bs.*1 →
  ∃ bs', Bundle.bucket_all bs ds = Ok bs'
    ∧ NoDup bs'.*1
    ∧ ∀ k, bucket_get bs' k
           = match bucket_get bs k, of_kind k ds with
             | None, [] => None
             | old, new => Some (default [] old ++ new)
             end.
Proof.
  revert bs. induction ds as [|d ds IH]; intros bs Hkinds Hbs; simpl.
  - exists bs. split; [done|]. split; [done|]. intros k.
    destruct (bucket_get bs k); simpl; [by rewrite app_nil_r | done].
  - destruct (Hkinds d) as [kind Hkind]; [apply list_elem_of_here|].
    rewrite Hkind. step_result.
    destruct (IH (Bundle.setdefault_append kind d bs)) as (bs' & Hbs' & Hnd & Hget).
    { intros d' Hd'. apply Hkinds. by apply list_elem_of_further. }
    { by apply setdefault_append_NoDup. }
    exists bs'. split; [done|]. split; [done|]. intros k.
    rewrite Hget, bucket_get_setdefault. unfold of_kind. rewrite filter_cons.
    destruct (String.eqb_spec kind k) as [<- | Hne].
    + rewrite decide_True by done. simpl.
      destruct (bucket_get bs kind); simpl; by rewrite <- ?app_assoc.
    + rewrite decide_False by congruence. done.
Qed.

Lemma write_buckets_lookup_other (bs : Bundle.buckets) (dir : Bundle.directory) (f : string) :
  f ∉ bucket_files bs → Bundle.write_buckets bs dir !! f = dir !! f.
Proof.
  revert dir. induction bs as [|[k items] bs IH]; intros dir; simpl; [done|].
  unfold bucket_files. rewrite !fmap_cons. intros Hf%not_elem_of_cons.
  destruct Hf as [Hne Hf]. unfold Bundle.write_buckets in *. simpl.
  rewrite IH by done. by rewrite lookup_insert_ne.
Qed.

Lemma write_buckets_lookup (bs : Bundle.buckets) (dir : Bundle.directory)
    (k : string) (items : list value) :
  NoDup (bucket_files bs) →
  (k, items) ∈ bs →
  Bundle.write_buckets bs dir !! Bundle.bucket_file k = Some (VList items).
Proof.
  revert dir. induction bs as [|[k0 items0] bs IH]; intros dir; simpl.
  - intros _ H. by apply elem_of_nil in H.
  - unfold bucket_files. rewrite !fmap_cons.
    intros [Hk0 Hbs]%NoDup_cons [[= -> ->] | Hin]%elem_of_cons.
    + unfold Bundle.write_buckets. simpl.
      fold (Bundle.write_buckets bs (<[Bundle.bucket_file k0 := VList items0]> dir)).
      rewrite write_buckets_lookup_other by done. apply lookup_insert_eq.
    + unfold Bundle.write_buckets. simpl. by apply IH.
Qed.

Lemma dom_write_buckets (bs : Bundle.buckets) (dir : Bundle.directory) :
  dom (Bundle.write_buckets bs dir) = dom dir ∪ list_to_set (bucket_files bs).
Proof.
  revert dir. induction bs as [|[k items] bs IH]; intros dir.
  - unfold bucket_files. simpl. set_solver.
  - unfold Bundle.write_buckets, bucket_files in *. simpl.
    rewrite IH, dom_insert_L. set_solver.
Qed.

Lemma elem_of_type_files (dir : Bundle.directory) (f : string) :
  f ∈ Bundle.type_files dir
  ↔ f ∈ dom dir ∧ endswith f ".json" = true ∧ f ≠ "schema.json".
Proof.
  unfold Bundle.type_files. rewrite list_elem_of_filter, elem_of_elements. tauto.
Qed.

Lemma bundle_kind_files (k : string) :
  k ∈ bundle_kinds →
  endswith (Bundle.bucket_file k) ".json" = true
  ∧ Bundle.bucket_file k ≠ "schema.json".
Proof.
  unfold bundle_kinds. rewrite !elem_of_cons, elem_of_nil.
  intros [-> | [-> | [-> | []]]]; by vm_compute.
Qed.

Lemma bundle_kind_files_inj (k k' : string) :
  k ∈ bundle_kinds → k' ∈ bundle_kinds →
  Bundle.bucket_file k = Bundle.bucket_file k' → k = k'.
Proof.
  unfold bundle_kinds. rewrite !elem_of_cons, !elem_of_nil.
  intros [-> | [-> | [-> | []]]] [-> | [-> | [-> | []]]]; by vm_compute.
Qed.

Lemma bundle_convert_row_kind (r : row) (out : list value) (d : value) :
  Bundle.convert_row [] r = Ok out →
  d ∈ out →
  ∃ kind, kind ∈ bundle_kinds ∧ item d "type_kind" = Some (VStr kind).
Proof.
  unfold Bundle.convert_row, row_item.
  destruct (r !! "TypeKind") as [kind|] eqn:Hkind; step_result; [|done].
  destruct (negb _).
  { intros [= <-] Hd. by apply elem_of_nil in Hd. }
  repeat case_bool_decide; subst.
  - enter_converter. rewrite Hkind.
    destruct (r !! "Type Name") as [name|]; step_result; [|done].
    intros [= <-] ->%list_elem_of_singleton.
    exists "HolonType". split; [apply list_elem_of_here | done].
  - enter_converter. rewrite Hkind.
    destruct (r !! "Type Name") as [name|]; step_result; [|done].
    destruct (strip_method _) as [ref_val|]; step_result; [|done].
    intros [= <-] ->%list_elem_of_singleton.
    exists "PropertyType".
    split; [apply list_elem_of_further, list_elem_of_here | done].
  - unfold Bundle.row_to_relationshiptype, row_item.
    destruct (r !! "Type Name") as [rel|]; step_result; [|done].
    destruct (int (or_ (row_get r "Target Min Cardinality" SNone) (SInt 0)))
      as [tmin|]; step_result; [|done].
    destruct (int (or_ (row_get r "Target Max Cardinality" SNone) (SInt 1)))
      as [tmax|]; step_result; [|done].
    destruct (mapM _ _) as [ds|] eqn:Hds; step_result; [|done].
    intros [= <-] Hd. apply mapM_result_Forall2 in Hds.
    destruct (Forall2_elem_of_r _ _ _ _ Hds Hd) as ([src tgt] & _ & Hy).
    revert Hy. enter_converter. rewrite Hkind. step_result.
    intros [= <-]. exists "RelationshipType".
    split; [do 2 apply list_elem_of_further; apply list_elem_of_here | done].
  - intros [= <-] Hd. by apply elem_of_nil in Hd.
Qed.

Lemma bundle_all_desc_kind (df : list row) (ds : list value) (d : value) :
  Bundle.all_desc df = Ok ds →
  d ∈ ds →
  ∃ kind, kind ∈ bundle_kinds
    ∧ item d "type_kind" = Some (VStr kind)
    ∧ Bundle.type_kind_of d = Ok kind.
Proof.
  intros Hds Hd.
  destruct (bundle_convert_rows_origin _ _ _ _ Hds Hd)
    as [Hnil | (r & out & _ & Hout & Hdout)]; [by apply elem_of_nil in Hnil|].
  destruct (bundle_convert_row_kind _ _ _ Hout Hdout) as (kind & Hin & Hkind).
  exists kind. split; [done|]. split; [done|].
  unfold Bundle.type_kind_of. by rewrite Hkind.
Qed.

(** C8, as stated, fails when the output directory is not empty at the
    start of the run: a file "old.json" it holds already is listed in
    [type_files], although the run writes the one bucket file
    "relationshiptypes.json". *)
Lemma manifest_lists_earlier_files :
  bucket_files <$> (Bundle.all_desc [member_of_row] ≫= Bundle.descriptor_buckets)
  = Ok ["relationshiptypes.json"]
  ∧ ∃ files,
      (λ dir : Bundle.directory, dir !! "schema.json" ≫= λ m, item m "type_files")
        <$> Bundle.run [member_of_row] used_directory
      = Ok (Some (VList (VStr <$> files)))
      ∧ "old.json" ∈ files
      ∧ "old.json" ∉ ["relationshiptypes.json"].
Proof.
  split; [vm_compute; reflexivity|].
  exists ["old.json"; "relationshiptypes.json"].
  split; [vm_compute; reflexivity|]. split; [apply list_elem_of_here|].
  intros [H | H]%elem_of_cons; [discriminate H | by apply elem_of_nil in H].
Qed.

(** C8, amended: in a run of the bundle notebook whose conversion returns,
    every descriptor appears in exactly one bucket, the one keyed by its
    [type_kind], and that bucket is the content of the file named by the
    kind lower-cased followed by "s.json"; the manifest's [type_files]
    names exactly the bucket files written together with every other
    name ending in ".json", "schema.json" excepted, that the output
    directory held before the run, hence exactly the bucket files
    written when the directory held no such name. *)
Theorem bundle_buckets_and_manifest
    (df : list row) (out_dir : Bundle.directory) (ds : list value) :
  Bundle.all_desc df = Ok ds →
  ∃ bs files dir,
    Bundle.descriptor_buckets ds = Ok bs
    ∧ Bundle.run df out_dir = Ok dir
    ∧ (dir !! "schema.json" ≫= λ m, item m "type_files")
      = Some (VList (VStr <$> files))
    ∧ (∀ d, d ∈ ds →
         ∃ kind items,
           item d "type_kind" = Some (VStr kind)
           ∧ (kind, items) ∈ bs
           ∧ d ∈ items
           ∧ (∀ kind' items', (kind', items') ∈ bs → d ∈ items' → kind' = kind)
           ∧ dir !! Bundle.bucket_file kind = Some (VList items))
    ∧ (∀ f, f ∈ files ↔
         f ∈ bucket_files bs
         ∨ (f ∈ dom out_dir ∧ endswith f ".json" = true ∧ f ≠ "schema.json"))
    ∧ ((∀ f, f ∈ dom out_dir → endswith f ".json" = true → f = "schema.json") →
       ∀ f, f ∈ files ↔ f ∈ bucket_files bs).
Proof.
  intros Hds.
  assert (Hkinds : ∀ d, d ∈ ds → ∃ kind, Bundle.type_kind_of d = Ok kind).
  { intros d Hd. destruct (bundle_all_desc_kind _ _ _ Hds Hd) as (k & _ & _ & Hk).
    by exists k. }
  destruct (bucket_all_spec ds [] Hkinds) as (bs & Hbs & Hnd & Hget);
    [apply NoDup_nil_2|].
  assert (Hitems : ∀ k items, (k, items) ∈ bs → items = of_kind k ds ∧ items ≠ []).
  { intros k items Hin. apply (elem_of_bucket_get _ _ _ Hnd) in Hin.
    rewrite Hget in Hin. simpl in Hin.
    destruct (of_kind k ds); [done|]. by injection Hin as <-. }
  assert (Hmember : ∀ k items d, (k, items) ∈ bs → d ∈ items →
            d ∈ ds ∧ Bundle.type_kind_of d = Ok k).
  { intros k items d Hin Hd. destruct (Hitems _ _ Hin) as [-> _].
    unfold of_kind in Hd. by apply list_elem_of_filter in Hd as [? ?]. }
  assert (Hkeys : ∀ k, k ∈ bs.*1 → k ∈ bundle_kinds).
  { intros k ([k' items] & -> & Hin)%list_elem_of_fmap. simpl.
    destruct (Hitems _ _ Hin) as [_ Hne].
    destruct items as [|d items]; [done|].
    destruct (Hmember k' (d :: items) d Hin) as [Hd Hk]; [apply list_elem_of_here|].
    destruct (bundle_all_desc_kind _ _ _ Hds Hd) as (k & Hk' & _ & Hk'').
    congruence. }
  assert (Hfiles : NoDup (bucket_files bs)).
  { apply NoDup_fmap_2_strong; [|done].
    intros k k' Hk Hk'. apply bundle_kind_files_inj; by apply Hkeys. }
  assert (Hjson : ∀ f, f ∈ bucket_files bs →
            endswith f ".json" = true ∧ f ≠ "schema.json").
  { intros f (k & -> & Hk)%list_elem_of_fmap. by apply bundle_kind_files, Hkeys. }
  assert (Hlisted : ∀ f, f ∈ Bundle.type_files (Bundle.write_buckets bs out_dir) ↔
            f ∈ bucket_files bs
            ∨ (f ∈ dom out_dir ∧ endswith f ".json" = true ∧ f ≠ "schema.json")).
  { intros f. rewrite elem_of_type_files, dom_write_buckets, elem_of_union,
      elem_of_list_to_set.
    split.
    - intros [[Hdir | Hfile] [Hend Hne]]; [right | left]; done.
    - intros [Hfile | (Hdir & Hend & Hne)].
      + destruct (Hjson _ Hfile). split; [by right | done].
      + split; [by left | done]. }
  exists bs, (Bundle.type_files (Bundle.write_buckets bs out_dir)),
    (<["schema.json" := Bundle.manifest (Bundle.write_buckets bs out_dir)]>
       (Bundle.write_buckets bs out_dir)).
  split; [done|]. split.
  { unfold Bundle.run. rewrite Hds. step_result.
    unfold Bundle.descriptor_buckets. rewrite Hbs. by step_result. }
  split; [by rewrite lookup_insert_eq|]. split; [|split; [done|]].
  - intros d Hd.
    destruct (bundle_all_desc_kind _ _ _ Hds Hd) as (kind & Hin & Hitem & Hkind).
    assert (Hd' : d ∈ of_kind kind ds).
    { unfold of_kind. by apply list_elem_of_filter. }
    assert (Hbucket : (kind, of_kind kind ds) ∈ bs).
    { apply bucket_get_elem_of. rewrite Hget. simpl.
      destruct (of_kind kind ds); [by apply elem_of_nil in Hd' | done]. }
    exists kind, (of_kind kind ds). repeat split; try done.
    + intros kind' items' Hin' Hd''.
      destruct (Hmember _ _ _ Hin' Hd'') as [_ Hkind']. congruence.
    + rewrite lookup_insert_ne.
      * by apply write_buckets_lookup.
      * intros Heq. by destruct (bundle_kind_files kind Hin).
  - intros Hfresh f. rewrite Hlisted. split; [|by left].
    intros [Hfile | (Hdir & Hend & Hne)]; [done|].
    by destruct (Hne (Hfresh _ Hdir Hend)).
Qed.

Lemma bundle_buckets_and_manifest_witness :
  ∃ d bs files dir,
    Bundle.all_desc [color_row] = Ok [d]
    ∧ Bundle.descriptor_buckets [d] = Ok bs
    ∧ Bundle.run [color_row] ∅ = Ok dir
    ∧ (dir !! "schema.json" ≫= λ m, item m "type_files")
      = Some (VList (VStr <$> files))
    ∧ (∃ kind items,
         item d "type_kind" = Some (VStr kind)
         ∧ (kind, items) ∈ bs
         ∧ d ∈ items
         ∧ (∀ kind' items', (kind', items') ∈ bs → d ∈ items' → kind' = kind)
         ∧ dir !! Bundle.bucket_file kind = Some (VList items))
    ∧ (∀ f, f ∈ files ↔ f ∈ bucket_files bs).
Proof.
  destruct (Bundle.all_desc [color_row]) as [[|d []]|] eqn:Hds;
    try (vm_compute in Hds; discriminate Hds).
  destruct (bundle_buckets_and_manifest [color_row] ∅ [d] Hds)
    as (bs & files & dir & Hbs & Hrun & Hmanifest & Heach & _ & Hfresh).
  exists d, bs, files, dir. repeat split; try done.
  - apply Heach, list_elem_of_here.
  - apply Hfresh. intros f' Hf'. by apply elem_of_empty in Hf'.
  - apply Hfresh. intros f' Hf'. by apply elem_of_empty in Hf'.
Defined.

(** ** Further properties of the notebooks *)

(** *** Text handling *)

Lemma lower_char_idem (c : ascii) : lower_char (lower_char c) = lower_char c.
Proof. by destruct c as [[] [] [] [] [] [] [] []]. Qed.

Lemma isspace_lower_char (c : ascii) : isspace (lower_char c) = isspace c.
Proof. by destruct c as [[] [] [] [] [] [] [] []]. Qed.

Lemma lower_idem (s : string) : lower (lower s) = lower s.
Proof. induction s as [|c r IH]; simpl; [done|]. by rewrite lower_char_idem, IH. Qed.

Lemma lstrip_lower (s : string) :
  lstrip_by isspace (lower s) = lower (lstrip_by isspace s).
Proof.
  induction s as [|c r IH]; simpl; [done|].
  rewrite isspace_lower_char. by destruct (isspace c).
Qed.

Lemma rstrip_lower (s : string) :
  rstrip_by isspace (lower s) = lower (rstrip_by isspace s).
Proof.
  induction s as [|c r IH]; simpl; [done|].
  rewrite IH, isspace_lower_char.
  destruct (rstrip_by isspace r); simpl; [by destruct (isspace c) | done].
Qed.

Lemma strip_lower (s : string) : strip (lower s) = lower (strip s).
Proof. unfold strip. by rewrite lstrip_lower, rstrip_lower. Qed.

Lemma lstrip_head (space : ascii → bool) (s : string) :
  lstrip_by space s = ""
  ∨ ∃ c r, lstrip_by space s = String c r ∧ space c = false.
Proof.
  induction s as [|c r IH]; simpl; [by left|].
  destruct (space c) eqn:Hc; [done|]. right. by exists c, r.
Qed.

Lemma rstrip_cons (space : ascii → bool) (c : ascii) (r : string) :
  space c = false → ∃ r', rstrip_by space (String c r) = String c r'.
Proof.
  intros Hc. simpl. rewrite Hc. destruct (rstrip_by space r); by eexists.
Qed.

Lemma rstrip_idem (space : ascii → bool) (s : string) :
  rstrip_by space (rstrip_by space s) = rstrip_by space s.
Proof.
  induction s as [|c r IH]; simpl; [done|].
  destruct (rstrip_by space r) as [|c' r'] eqn:Hr.
  - destruct (space c) eqn:Hc; simpl; [done|]. by rewrite Hc.
  - simpl in *. by rewrite IH.
Qed.

Lemma strip_idem (s : string) : strip (strip s) = strip s.
Proof.
  unfold strip.
  destruct (lstrip_head isspace s) as [-> | (c & r & -> & Hc)]; [done|].
  destruct (rstrip_cons isspace c r Hc) as [r' Hr'].
  assert (Hl : lstrip_by isspace (rstrip_by isspace (String c r))
               = rstrip_by isspace (String c r)).
  { rewrite Hr'. simpl. by rewrite Hc. }
  by rewrite Hl, rstrip_idem.
Qed.

Lemma has_char_lstrip (space : ascii → bool) (c : ascii) (s : string) :
  has_char c s = false → has_char c (lstrip_by space s) = false.
Proof.
  induction s as [|c' r IH]; simpl; [done|].
  intros [Hc' Hr]%orb_false_elim.
  destruct (space c'); [by apply IH|]. simpl. by rewrite Hc', Hr.
Qed.

Lemma has_char_rstrip (space : ascii → bool) (c : ascii) (s : string) :
  has_char c s = false → has_char c (rstrip_by space s) = false.
Proof.
  induction s as [|c' r IH]; simpl; [done|].
  intros [Hc' Hr]%orb_false_elim. specialize (IH Hr).
  destruct (rstrip_by space r).
  - destruct (space c'); simpl; [done|]. by rewrite Hc'.
  - simpl in *. by rewrite Hc', IH.
Qed.

Lemma split_no_separator (sep : ascii) (s p : string) :
  p ∈ split sep s → has_char sep p = false.
Proof.
  revert p. induction s as [|c r IH]; simpl; intros p.
  - by intros ->%list_elem_of_singleton.
  - destruct (Ascii.eqb c sep) eqn:Hc.
    + intros [-> | Hp]%elem_of_cons; [done | by apply IH].
    + destruct (split sep r) as [|h t] eqn:Hr.
      * intros ->%list_elem_of_singleton. simpl. by rewrite Hc.
      * intros [-> | Hp]%elem_of_cons.
        -- simpl. rewrite Hc. apply IH, list_elem_of_here.
        -- by apply IH, list_elem_of_further.
Qed.

Lemma strip_tokens_clean (s t : string) : t ∈ strip_tokens s → clean_token t.
Proof.
  unfold strip_tokens. intros (p & Ht & Hp)%list_elem_of_bind.
  simpl in Ht. destruct (String.eqb_spec (strip p) ""); simpl in Ht.
  - by apply elem_of_nil in Ht.
  - apply list_elem_of_singleton in Ht as ->.
    split; [done|]. split; [apply strip_idem|].
    apply has_char_rstrip, has_char_lstrip. by eapply split_no_separator.
Qed.

(** The decimal text of an integer starts with the sign or a digit. *)
Lemma str_int_head (z : Z) :
  ∃ c r, str (SInt z) = String c r
    ∧ isspace c = false ∧ lower_char c ≠ "c"%char.
Proof.
  destruct z as [|p|p]; simpl.
  - by eexists _, _.
  - unfold NilZero.string_of_uint. destruct (Pos.to_uint p); by eexists _, _.
  - by eexists _, _.
Qed.

Lemma strip_nonspace_head (c : ascii) (r : string) :
  isspace c = false → ∃ r', strip (String c r) = String c r'.
Proof. intros Hc. unfold strip. simpl. rewrite Hc. by apply rstrip_cons. Qed.

(** *** Check boxes *)

(** X1: [bool_norm] does not depend on the case of a text nor on the white
    space around it, in either notebook. *)
Theorem bool_norm_ignores_case_and_space (s : string) :
  Bundle.bool_norm (SStr (strip s)) = Bundle.bool_norm (SStr s)
  ∧ Bundle.bool_norm (SStr (lower s)) = Bundle.bool_norm (SStr s)
  ∧ SingleFile.bool_norm (SStr (strip s)) = SingleFile.bool_norm (SStr s)
  ∧ SingleFile.bool_norm (SStr (lower s)) = SingleFile.bool_norm (SStr s).
Proof.
  unfold Bundle.bool_norm, SingleFile.bool_norm. cbn [str].
  by rewrite strip_idem, strip_lower, lower_idem.
Qed.

(** X2: [bool_norm] is true of nothing but the bool [True] and a text
    that reads "checked" once trimmed and lower-cased: never of [None], of
    a blank cell, of [False] or of a number, 1 included. *)
Theorem bool_norm_true_only_if_checked (v : scalar) :
  Bundle.bool_norm v = true ∨ SingleFile.bool_norm v = true →
  v = SBool true ∨ ∃ s, v = SStr s ∧ lower (strip s) = "checked".
Proof.
  assert (H : Bundle.bool_norm v = true →
              v = SBool true ∨ ∃ s, v = SStr s ∧ lower (strip s) = "checked").
  { destruct v as [|[]|z| |s]; try (by left); try discriminate.
    - unfold Bundle.bool_norm.
      destruct (str_int_head z) as (c & r & -> & Hc & Hl).
      destruct (strip_nonspace_head c r Hc) as [r' ->]. simpl.
      by destruct (Ascii.eqb_spec (lower_char c) "c").
    - unfold Bundle.bool_norm. cbn [str]. intros Heq%String.eqb_eq.
      right. by exists s. }
  intros [Hb | Hs]; by apply H.
Qed.

Lemma bool_norm_true_only_if_checked_witness :
  Bundle.bool_norm (SStr " Checked ") = true
  ∧ (SStr " Checked " = SBool true
     ∨ ∃ s, SStr " Checked " = SStr s ∧ lower (strip s) = "checked").
Proof.
  split; [reflexivity|].
  apply bool_norm_true_only_if_checked. by left.
Defined.

(** *** What the converters raise *)

(** X3: the holon converter of either notebook raises [KeyError] for
    [Type Name] when that column is absent, else [KeyError] for
    [TypeKind] when that one is, and returns in every other case,
    whatever the cells hold. *)
Theorem holon_converter_raises (r : row) :
  let expected :=
    match r !! "Type Name", r !! "TypeKind" with
    | None, _ => Some (KeyError "Type Name")
    | Some _, None => Some (KeyError "TypeKind")
    | Some _, Some _ => None
    end in
  raised (Bundle.row_to_holontype r) = expected
  ∧ raised (SingleFile.row_to_holontype r) = expected.
Proof.
  enter_converter.
  destruct (r !! "Type Name") as [name|]; step_result; [|done].
  by destruct (r !! "TypeKind") as [kind|].
Qed.

(** X4: the property converter of either notebook raises [KeyError] for
    [Type Name], else [KeyError] for [TypeKind], when the column is
    absent, else [AttributeError] when the value-type cell is there and
    is not a text, and returns in every other case. *)
Theorem property_converter_raises (r : row) :
  let expected :=
    match r !! "Type Name", r !! "TypeKind" with
    | None, _ => Some (KeyError "Type Name")
    | Some _, None => Some (KeyError "TypeKind")
    | Some _, Some _ =>
        match r !! "ValueType (VALUE_TYPE_FOR)" with
        | None | Some (SStr _) => None
        | Some _ => Some AttributeError
        end
    end in
  raised (Bundle.row_to_propertytype r) = expected
  ∧ raised (SingleFile.row_to_propertytype r) = expected.
Proof.
  enter_converter. unfold row_get.
  destruct (r !! "Type Name") as [name|]; step_result; [|done].
  destruct (r !! "TypeKind") as [kind|]; step_result; [|done].
  by destruct (r !! "ValueType (VALUE_TYPE_FOR)") as [[]|].
Qed.

Lemma mapM_result_raised {A B} (f : A → result B) (l : list A) (e : exn) :
  l ≠ [] → (∀ x, f x = Raise e) → mapM f l = Raise e.
Proof. destruct l as [|x l]; [done|]. intros _ Hf. simpl. by rewrite Hf. Qed.

Lemma relationship_raises_aux (r : row) :
  raised (Bundle.row_to_relationshiptype r)
  = match r !! "Type Name" with
    | None => Some (KeyError "Type Name")
    | Some _ =>
        match target_min_of r, target_max_of r with
        | Raise e, _ => Some e
        | Ok _, Raise e => Some e
        | Ok _, Ok _ =>
            match product (froms_of r) (tos_of r), r !! "TypeKind" with
            | _ :: _, None => Some (KeyError "TypeKind")
            | _, _ => None
            end
        end
    end.
Proof.
  unfold Bundle.row_to_relationshiptype, row_item, target_min_of, target_max_of.
  destruct (r !! "Type Name") as [rel|]; step_result; [|done].
  destruct (int (or_ (row_get r "Target Min Cardinality" SNone) (SInt 0)))
    as [tmin|]; step_result; [|done].
  destruct (int (or_ (row_get r "Target Max Cardinality" SNone) (SInt 1)))
    as [tmax|]; step_result; [|done].
  fold (froms_of r) (tos_of r).
  destruct (r !! "TypeKind") as [kind|] eqn:Hkind.
  - match goal with |- context [mapM ?f ?l] =>
      destruct (mapM_result_total f l) as [outs ->] end.
    + intros [src tgt] _. enter_converter. rewrite Hkind. by eexists.
    + by destruct (product _ _).
  - destruct (product (froms_of r) (tos_of r)) as [|p l] eqn:Hp; [done|].
    erewrite mapM_result_raised; [done..|].
    intros [src tgt]. enter_converter. by rewrite Hkind.
Qed.

(** X5: the relationship converter of either notebook raises [KeyError]
    for [Type Name] when that column is absent, else what [int] raises on
    the minimum cardinality, else what it raises on the maximum, else
    [KeyError] for [TypeKind] when that column is absent and there is at
    least one pair to expand; it returns in every other case, so a row
    without [TypeKind] and with an empty "from" or "to" list converts to
    no descriptor. *)
Theorem relationship_converter_raises (r : row) :
  let expected :=
    match r !! "Type Name" with
    | None => Some (KeyError "Type Name")
    | Some _ =>
        match target_min_of r, target_max_of r with
        | Raise e, _ => Some e
        | Ok _, Raise e => Some e
        | Ok _, Ok _ =>
            match product (froms_of r) (tos_of r), r !! "TypeKind" with
            | _ :: _, None => Some (KeyError "TypeKind")
            | _, _ => None
            end
        end
    end in
  raised (Bundle.row_to_relationshiptype r) = expected
  ∧ raised (SingleFile.row_to_relationshiptype r) = expected.
Proof.
  intros expected. split; [apply relationship_raises_aux|].
  rewrite relationship_same_but_kind. unfold expected.
  rewrite <- relationship_raises_aux.
  by destruct (Bundle.row_to_relationshiptype r).
Qed.

(** *** The fields of a relationship descriptor *)

(** Runs a relationship converter whose cells convert, leaving the
    descriptors related to the pairs they were made for. *)
Ltac relationship_outs Hname Hkind Hmin Hmax outs Houts :=
  enter_converter; unfold target_min_of, target_max_of in *;
  rewrite Hname, Hkind; step_result; rewrite Hmin, Hmax; step_result;
  match goal with |- context [mapM ?f ?l] =>
    destruct (mapM_result_total f l) as [outs Houts];
      [by intros [? ?] _; eexists|]
  end;
  exists outs; split; [done|]; apply mapM_result_Forall2 in Houts.

Lemma Forall2_Forall_r {A B} (R : A → B → Prop) (P : B → Prop) l ys :
  (∀ x y, R x y → P y) → Forall2 R l ys → Forall P ys.
Proof. intros HR. induction 1; constructor; eauto. Qed.

Lemma int_or_zero (a : Z) : int (or_ (SInt a) (SInt 0)) = Ok a.
Proof. unfold or_. simpl. by destruct (Z.eqb_spec a 0) as [-> | ?]. Qed.

Lemma int_or_one (b : Z) :
  int (or_ (SInt b) (SInt 1)) = Ok (if b =? 0 then 1 else b).
Proof. unfold or_. simpl. by destruct (b =? 0). Qed.

(** X6: the two cardinalities of every descriptor of a row are what [int]
    made of the cells, with no check of one against the other; an integer
    minimum is kept as it is, an integer maximum too except that 0 is
    read as 1. *)
Theorem cardinalities_as_converted (r : row) (rel kind : scalar) (tmin tmax : Z) :
  r !! "Type Name" = Some rel →
  r !! "TypeKind" = Some kind →
  target_min_of r = Ok tmin →
  target_max_of r = Ok tmax →
  let carried d :=
    lookup_path d ["spec"; "target_min_cardinality"] = Some (VInt tmin)
    ∧ lookup_path d ["spec"; "target_max_cardinality"] = Some (VInt tmax) in
  (∃ outs, Bundle.row_to_relationshiptype r = Ok outs ∧ Forall carried outs)
  ∧ (∃ outs, SingleFile.row_to_relationshiptype r = Ok outs ∧ Forall carried outs)
  ∧ (∀ a, r !! "Target Min Cardinality" = Some (SInt a) → tmin = a)
  ∧ (∀ b, r !! "Target Max Cardinality" = Some (SInt b) →
          tmax = if b =? 0 then 1 else b).
Proof.
  intros Hname Hkind Hmin Hmax carried.
  split; [|split; [|split]].
  - relationship_outs Hname Hkind Hmin Hmax outs Houts.
    eapply Forall2_Forall_r; [|exact Houts].
    by intros [src tgt] y [= <-].
  - relationship_outs Hname Hkind Hmin Hmax outs Houts.
    eapply Forall2_Forall_r; [|exact Houts].
    by intros [src tgt] y [= <-].
  - intros a Ha. unfold target_min_of, row_get in Hmin.
    rewrite Ha in Hmin. change (default SNone (Some (SInt a))) with (SInt a) in Hmin.
    rewrite int_or_zero in Hmin.
    by injection Hmin.
  - intros b Hb. unfold target_max_of, row_get in Hmax.
    rewrite Hb in Hmax. change (default SNone (Some (SInt b))) with (SInt b) in Hmax.
    rewrite int_or_one in Hmax.
    by injection Hmax.
Qed.

Lemma deletion_cell (r : row) :
  let v := row_get r "Deletion Semantic" SNone in
  (if isna v || negb (truthy (SStr (strip (str v)))) then SNone else v)
  = deletion_semantic_of (r !! "Deletion Semantic").
Proof.
  unfold row_get. destruct (r !! "Deletion Semantic") as [[|[]|z| |s]|]; try done.
  - cbn [from_option id isna orb deletion_semantic_of].
    destruct (str_int_head z) as (c & t & -> & Hc & _).
    by destruct (strip_nonspace_head c t Hc) as [t' ->].
  - cbn [from_option id isna orb deletion_semantic_of str truthy].
    by destruct (String.eqb (strip s) "").
Qed.

(** X7: in every descriptor of a row [deletion_semantic] has no value
    when the column is absent, when the cell is blank and when it is a
    text of white space only; otherwise it is the cell as it is, a text
    not being trimmed. *)
Theorem deletion_semantic_normalised (r : row) (rel kind : scalar) (tmin tmax : Z) :
  r !! "Type Name" = Some rel →
  r !! "TypeKind" = Some kind →
  target_min_of r = Ok tmin →
  target_max_of r = Ok tmax →
  let normalised d :=
    lookup_path d ["spec"; "deletion_semantic"]
    = Some (VAtom (deletion_semantic_of (r !! "Deletion Semantic"))) in
  (∃ outs, Bundle.row_to_relationshiptype r = Ok outs ∧ Forall normalised outs)
  ∧ (∃ outs, SingleFile.row_to_relationshiptype r = Ok outs ∧ Forall normalised outs).
Proof.
  intros Hname Hkind Hmin Hmax normalised. unfold normalised.
  rewrite <- deletion_cell. split.
  - relationship_outs Hname Hkind Hmin Hmax outs Houts.
    eapply Forall2_Forall_r; [|exact Houts].
    by intros [src tgt] y [= <-].
  - unfold SingleFile.row_to_relationshiptype. rewrite deletion_test_same.
    relationship_outs Hname Hkind Hmin Hmax outs Houts.
    eapply Forall2_Forall_r; [|exact Houts].
    by intros [src tgt] y [= <-].
Qed.

(** X8: the descriptors a row expands to differ in nothing but their
    [type_name] and, in the spec, [descriptor_name] and
    [target_holon_type]. *)
Theorem edges_share_the_row (r : row) (outs : list value) (d d' : value) :
  Bundle.row_to_relationshiptype r = Ok outs
  ∨ SingleFile.row_to_relationshiptype r = Ok outs →
  d ∈ outs → d' ∈ outs →
  row_part d = row_part d'.
Proof.
  intros [Houts | Houts] Hd Hd'; revert Houts.
  - unfold Bundle.row_to_relationshiptype, row_item.
    destruct (r !! "Type Name") as [rel|]; step_result; [|done].
    destruct (int (or_ (row_get r "Target Min Cardinality" SNone) (SInt 0)))
      as [tmin|]; step_result; [|done].
    destruct (int (or_ (row_get r "Target Max Cardinality" SNone) (SInt 1)))
      as [tmax|]; step_result; [|done].
    intros Houts%mapM_result_Forall2.
    destruct (Forall2_elem_of_r _ _ _ _ Houts Hd) as ([src tgt] & _ & Hy).
    destruct (Forall2_elem_of_r _ _ _ _ Houts Hd') as ([src' tgt'] & _ & Hy').
    revert Hy Hy'. enter_converter.
    destruct (r !! "TypeKind") as [kind|]; step_result; [|done].
    by intros [= <-] [= <-].
  - unfold SingleFile.row_to_relationshiptype, row_item.
    destruct (r !! "Type Name") as [rel|]; step_result; [|done].
    destruct (int (or_ (row_get r "Target Min Cardinality" SNone) (SInt 0)))
      as [tmin|]; step_result; [|done].
    destruct (int (or_ (row_get r "Target Max Cardinality" SNone) (SInt 1)))
      as [tmax|]; step_result; [|done].
    intros Houts%mapM_result_Forall2.
    destruct (Forall2_elem_of_r _ _ _ _ Houts Hd) as ([src tgt] & _ & Hy).
    destruct (Forall2_elem_of_r _ _ _ _ Houts Hd') as ([src' tgt'] & _ & Hy').
    revert Hy Hy'. enter_converter.
    destruct (r !! "TypeKind") as [kind|]; step_result; [|done].
    by intros [= <-] [= <-].
Qed.

Lemma cardinalities_as_converted_witness :
  ∃ outs, Bundle.row_to_relationshiptype wide_row = Ok outs
    ∧ Forall (λ d,
        lookup_path d ["spec"; "target_min_cardinality"] = Some (VInt 5)
        ∧ lookup_path d ["spec"; "target_max_cardinality"] = Some (VInt 1)) outs.
Proof.
  exact (proj1 (cardinalities_as_converted wide_row
                  (SStr "MEMBER_OF") (SStr "RelationshipType") 5 1
                  eq_refl eq_refl eq_refl eq_refl)).
Defined.

Lemma deletion_semantic_normalised_witness :
  ∃ outs, SingleFile.row_to_relationshiptype blank_deletion_row = Ok outs
    ∧ Forall (λ d, lookup_path d ["spec"; "deletion_semantic"] = Some VNone) outs.
Proof.
  exact (proj2 (deletion_semantic_normalised blank_deletion_row
                  (SStr "MEMBER_OF") (SStr "RelationshipType") 0 1
                  eq_refl eq_refl eq_refl eq_refl)).
Defined.

Lemma edges_share_the_row_witness :
  ∃ outs, Bundle.row_to_relationshiptype member_of_row = Ok outs
    ∧ length outs = 2%nat
    ∧ ∀ d d', d ∈ outs → d' ∈ outs → row_part d = row_part d'.
Proof.
  assert (Hlen : length <$> Bundle.row_to_relationshiptype member_of_row = Ok 2%nat)
    by (vm_compute; reflexivity).
  destruct (Bundle.row_to_relationshiptype member_of_row) as [outs|e] eqn:Houts;
    [|discriminate Hlen].
  injection Hlen as Hlen. exists outs. split; [reflexivity|]. split; [exact Hlen|].
  intros d d'. exact (edges_share_the_row member_of_row outs d d' (or_introl Houts)).
Defined.

(** X9: every descriptor of a relationship row was made for a pair
    (src, tgt) of the product of the parsed lists: its [type_name] is
    [src-rel->tgt], its [descriptor_name] that name followed by
    "Descriptor", its [relationship_name] the [Type Name] cell, and its
    [target_holon_type] a reference to [tgt] qualified by the schema
    "CatalistSchema". *)
Theorem edge_names_its_pair (r : row) (outs : list value) (d : value) :
  Bundle.row_to_relationshiptype r = Ok outs
  ∨ SingleFile.row_to_relationshiptype r = Ok outs →
  d ∈ outs →
  ∃ rel p,
    r !! "Type Name" = Some rel
    ∧ p ∈ product (froms_of r) (tos_of r)
    ∧ item d "type_name" = Some (VStr (edge_name rel p))
    ∧ lookup_path d ["spec"; "descriptor_name"]
      = Some (VStr (edge_name rel p +:+ "Descriptor"))
    ∧ lookup_path d ["spec"; "relationship_name"] = Some (VAtom rel)
    ∧ lookup_path d ["spec"; "target_holon_type"]
      = Some (VDict {[ "$ref" :=
                 VDict {[ "type_name" := VStr p.2;
                          "schema" := VStr "CatalistSchema" ]} ]}).
Proof.
  intros [Houts | Houts] Hd; revert Houts.
  - unfold Bundle.row_to_relationshiptype, row_item.
    destruct (r !! "Type Name") as [rel|]; step_result; [|done].
    destruct (int (or_ (row_get r "Target Min Cardinality" SNone) (SInt 0)))
      as [tmin|]; step_result; [|done].
    destruct (int (or_ (row_get r "Target Max Cardinality" SNone) (SInt 1)))
      as [tmax|]; step_result; [|done].
    intros Houts%mapM_result_Forall2.
    destruct (Forall2_elem_of_r _ _ _ _ Houts Hd) as ([src tgt] & Hp & Hy).
    revert Hy. enter_converter.
    destruct (r !! "TypeKind") as [kind|]; step_result; [|done].
    intros [= <-]. by exists rel, (src, tgt).
  - unfold SingleFile.row_to_relationshiptype, row_item.
    destruct (r !! "Type Name") as [rel|]; step_result; [|done].
    destruct (int (or_ (row_get r "Target Min Cardinality" SNone) (SInt 0)))
      as [tmin|]; step_result; [|done].
    destruct (int (or_ (row_get r "Target Max Cardinality" SNone) (SInt 1)))
      as [tmax|]; step_result; [|done].
    intros Houts%mapM_result_Forall2.
    destruct (Forall2_elem_of_r _ _ _ _ Houts Hd) as ([src tgt] & Hp & Hy).
    revert Hy. enter_converter.
    destruct (r !! "TypeKind") as [kind|]; step_result; [|done].
    intros [= <-]. by exists rel, (src, tgt).
Qed.

Lemma edge_names_its_pair_witness :
  ∃ outs, Bundle.row_to_relationshiptype member_of_row = Ok outs
    ∧ length outs = 2%nat
    ∧ ∀ d, d ∈ outs →
        ∃ rel p,
          member_of_row !! "Type Name" = Some rel
          ∧ p ∈ product (froms_of member_of_row) (tos_of member_of_row)
          ∧ item d "type_name" = Some (VStr (edge_name rel p))
          ∧ lookup_path d ["spec"; "descriptor_name"]
            = Some (VStr (edge_name rel p +:+ "Descriptor"))
          ∧ lookup_path d ["spec"; "relationship_name"] = Some (VAtom rel)
          ∧ lookup_path d ["spec"; "target_holon_type"]
            = Some (VDict {[ "$ref" :=
                       VDict {[ "type_name" := VStr p.2;
                                "schema" := VStr "CatalistSchema" ]} ]}).
Proof.
  assert (Hlen : length <$> Bundle.row_to_relationshiptype member_of_row = Ok 2%nat)
    by (vm_compute; reflexivity).
  destruct (Bundle.row_to_relationshiptype member_of_row) as [outs|e] eqn:Houts;
    [|discriminate Hlen].
  injection Hlen as Hlen. exists outs. split; [reflexivity|]. split; [exact Hlen|].
  intros d. exact (edge_names_its_pair member_of_row outs d (or_introl Houts)).
Defined.

(** *** The drivers as a whole *)

Lemma bundle_convert_rows_concat (rows : list row) (acc : list value) :
  Bundle.convert_rows acc rows
  = (λ outs, acc ++ concat outs) <$> mapM (Bundle.convert_row []) rows.
Proof.
  revert acc. induction rows as [|r rows IH]; intros acc; simpl.
  - by rewrite app_nil_r.
  - rewrite bundle_convert_row_acc.
    destruct (Bundle.convert_row [] r) as [out|]; simpl; [|done].
    rewrite IH. destruct (mapM _ rows); simpl; [|done]. by rewrite app_assoc.
Qed.

Lemma single_convert_rows_concat (rows : list row) (acc : list value) :
  SingleFile.convert_rows acc rows
  = (λ outs, acc ++ concat outs) <$> mapM (SingleFile.convert_row []) rows.
Proof.
  revert acc. induction rows as [|r rows IH]; intros acc; simpl.
  - by rewrite app_nil_r.
  - rewrite single_convert_row_acc.
    destruct (SingleFile.convert_row [] r) as [out|]; simpl; [|done].
    rewrite IH. destruct (mapM _ rows); simpl; [|done]. by rewrite app_assoc.
Qed.

(** X10: what a driver returns for a table is, in row order, what each
    row gives when converted alone, and it raises what the first row that
    raises does; the payload of the single-file notebook holds exactly
    that list under [types], beside the schema block. *)
Theorem drivers_concatenate_rows (df : list row) :
  Bundle.all_desc df = (λ outs, concat outs) <$> mapM (Bundle.convert_row []) df
  ∧ SingleFile.descriptors df
    = (λ outs, concat outs) <$> mapM (SingleFile.convert_row []) df
  ∧ SingleFile.payload df
    = (λ outs, VDict {[ "schema" := SingleFile.schema_block;
                        "types" := VList (concat outs) ]})
        <$> mapM (SingleFile.convert_row []) df.
Proof.
  unfold SingleFile.payload, Bundle.all_desc, SingleFile.descriptors.
  rewrite bundle_convert_rows_concat, single_convert_rows_concat.
  repeat split; by destruct (mapM _ df).
Qed.

(** X11: a row whose [TypeKind] cell is there and is none of
    "HolonType", "PropertyType", "RelationshipType" adds nothing to the
    descriptors and cannot make the driver raise, whatever else it
    holds; so do the kinds that are exported but have no converter. *)
Theorem other_kinds_are_skipped (r : row) (kind : scalar) (acc : list value) :
  r !! "TypeKind" = Some kind →
  kind ∉ [SStr "HolonType"; SStr "PropertyType"; SStr "RelationshipType"] →
  Bundle.convert_row acc r = Ok acc
  ∧ SingleFile.convert_row acc r = Ok acc.
Proof.
  intros Hkind Hother.
  unfold Bundle.convert_row, SingleFile.convert_row, row_item.
  rewrite Hkind. step_result.
  rewrite !bool_decide_false.
  - split; by destruct (negb _).
  - intros ->. apply Hother. do 2 apply list_elem_of_further. apply list_elem_of_here.
  - intros ->. apply Hother. apply list_elem_of_further, list_elem_of_here.
  - intros ->. apply Hother. apply list_elem_of_here.
Qed.

Lemma other_kinds_are_skipped_witness :
  Bundle.convert_row [] value_type_row = Ok []
  ∧ SingleFile.convert_row [] value_type_row = Ok [].
Proof.
  apply (other_kinds_are_skipped value_type_row (SStr "ValueType") []); [done|].
  intros H. by repeat (apply elem_of_cons in H as [H | H]; [discriminate H|]);
    apply elem_of_nil in H.
Defined.

Lemma item_with_type_kind (kind key : string) (d : value) :
  key ≠ "type_kind" → item (with_type_kind kind d) key = item d key.
Proof. intros Hne. destruct d; simpl; [done..|]. by rewrite lookup_insert_ne. Qed.

Lemma item_without_value_type (key : string) (d : value) :
  key ≠ "spec" → item (without_value_type d) key = item d key.
Proof.
  intros Hne. destruct d as [| |m]; simpl; [done..|].
  destruct (m !! "spec") as [[]|]; simpl; try done. by rewrite lookup_insert_ne.
Qed.

Lemma type_names_with_type_kind (kind : string) (ds : list value) :
  type_names (with_type_kind kind <$> ds) = type_names ds.
Proof.
  unfold type_names. rewrite <- list_fmap_compose. apply list_fmap_ext.
  intros _ d _. by apply item_with_type_kind.
Qed.

Lemma convert_row_same_names (r : row) :
  type_names <$> SingleFile.convert_row [] r
  = type_names <$> Bundle.convert_row [] r.
Proof.
  unfold SingleFile.convert_row, Bundle.convert_row.
  destruct (row_item r "TypeKind") as [kind|]; step_result; [|reflexivity].
  change (SingleFile.kind_in kind SingleFile.TYPEKINDS_TO_EXPORT)
    with (Bundle.kind_in kind Bundle.TYPEKINDS).
  destruct (negb (Bundle.kind_in kind Bundle.TYPEKINDS)); [reflexivity|].
  destruct (bool_decide (kind = SStr "HolonType")).
  { rewrite holon_same_but_kind.
    destruct (Bundle.row_to_holontype r) as [d|]; step_result; [|reflexivity].
    unfold type_names. rewrite !fmap_app, !fmap_cons, !fmap_nil.
    by rewrite item_with_type_kind. }
  destruct (bool_decide (kind = SStr "PropertyType")).
  { pose proof (property_same_but_kind_and_value_type r) as Hp.
    destruct (SingleFile.row_to_propertytype r) as [d'|],
      (Bundle.row_to_propertytype r) as [d|]; step_result;
      cbn [fmap result_fmap] in Hp; try discriminate Hp; [|by injection Hp as ->].
    injection Hp as Hp. unfold type_names. rewrite !fmap_app, !fmap_cons, !fmap_nil.
    rewrite <- (item_without_value_type "type_name" d') by done.
    by rewrite Hp, item_without_value_type, item_with_type_kind. }
  destruct (bool_decide (kind = SStr "RelationshipType")); [|reflexivity].
  rewrite relationship_same_but_kind.
  destruct (Bundle.row_to_relationshiptype r) as [ds|]; step_result; [|reflexivity].
  by rewrite !app_nil_l, type_names_with_type_kind.
Qed.

Lemma mapM_same_names (rows : list row) :
  (λ outs, type_names (concat outs)) <$> mapM (SingleFile.convert_row []) rows
  = (λ outs, type_names (concat outs)) <$> mapM (Bundle.convert_row []) rows.
Proof.
  induction rows as [|r rows IH]; cbn [mapM]; [by step_result|].
  pose proof (convert_row_same_names r) as Hr.
  destruct (SingleFile.convert_row [] r) as [out'|],
    (Bundle.convert_row [] r) as [out|]; step_result;
    cbn [fmap result_fmap] in Hr; try discriminate Hr; [|exact Hr].
  destruct (mapM (SingleFile.convert_row []) rows) as [outs'|],
    (mapM (Bundle.convert_row []) rows) as [outs|]; step_result;
    cbn [fmap result_fmap] in IH; try discriminate IH; [|exact IH].
  injection Hr as Hr. injection IH as IH.
  cbn [concat]. unfold type_names in *. by rewrite !fmap_app, Hr, IH.
Qed.

(** X12: on every table the two notebooks raise the same exception or
    return descriptor lists with the same [type_name]s in the same order,
    hence of the same length. *)
Theorem notebooks_name_alike (df : list row) :
  type_names <$> SingleFile.descriptors df = type_names <$> Bundle.all_desc df
  ∧ length <$> SingleFile.descriptors df = length <$> Bundle.all_desc df.
Proof.
  assert (Hnames : type_names <$> SingleFile.descriptors df
                   = type_names <$> Bundle.all_desc df).
  { unfold SingleFile.descriptors, Bundle.all_desc.
    rewrite single_convert_rows_concat, bundle_convert_rows_concat.
    pose proof (mapM_same_names df) as H.
    destruct (mapM (SingleFile.convert_row []) df),
      (mapM (Bundle.convert_row []) df); step_result;
      cbn [fmap result_fmap] in H; try discriminate H; [|exact H].
    injection H as H. by rewrite !app_nil_l, H. }
  split; [exact Hnames|].
  destruct (SingleFile.descriptors df) as [ds'|], (Bundle.all_desc df) as [ds|];
    step_result; cbn [fmap result_fmap] in Hnames; try discriminate Hnames;
    [|by injection Hnames as ->].
  injection Hnames as Hnames. apply (f_equal length) in Hnames.
  unfold type_names in Hnames. rewrite !length_fmap in Hnames. by rewrite Hnames.
Qed.

(** *** List cells, once more *)

(** X13: every token a list cell is parsed to is not empty, has no white
    space around it and holds no comma: so are the "from" and "to" lists
    of a relationship row and the [properties] and [key_properties] of a
    holon descriptor. *)
Theorem list_cells_are_clean (r : row) (d : value) :
  Bundle.row_to_holontype r = Ok d ∨ SingleFile.row_to_holontype r = Ok d →
  Forall clean_token (froms_of r)
  ∧ Forall clean_token (tos_of r)
  ∧ ∃ props keys,
      lookup_path d ["spec"; "properties"] = Some (VList (VStr <$> props))
      ∧ lookup_path d ["spec"; "key_properties"] = Some (VList (VStr <$> keys))
      ∧ Forall clean_token props
      ∧ Forall clean_token keys.
Proof.
  intros Hd.
  assert (Hclean : ∀ s, Forall clean_token (strip_tokens s)).
  { intros s. apply Forall_forall. intros t. apply strip_tokens_clean. }
  split; [apply Hclean|]. split; [apply Hclean|].
  assert (∃ name kind, r !! "Type Name" = Some name ∧ r !! "TypeKind" = Some kind)
    as (name & kind & Hname & Hkind).
  { destruct Hd as [Hd | Hd]; revert Hd; enter_converter;
      destruct (r !! "Type Name") as [name|]; step_result; try done;
      destruct (r !! "TypeKind") as [kind|]; step_result; try done;
      by exists name, kind. }
  destruct (holon_list_cells r name kind Hname Hkind)
    as (d0 & d0' & Hb & Hs & Hp & Hk & Hp' & Hk').
  cbv zeta in Hp, Hk, Hp', Hk'.
  assert (Hd0 : lookup_path d ["spec"; "properties"]
                = lookup_path d0 ["spec"; "properties"]
                ∧ lookup_path d ["spec"; "key_properties"]
                  = lookup_path d0 ["spec"; "key_properties"]).
  { destruct Hd as [Hd | Hd].
    - rewrite Hb in Hd. by injection Hd as <-.
    - rewrite Hs in Hd. injection Hd as <-. by rewrite Hp, Hk, Hp', Hk'. }
  destruct Hd0 as [-> ->]. rewrite Hp, Hk.
  exists (if isna (row_get r "MAP PROPERTIES PropertyTypes" (SStr "")) then []
          else strip_tokens (str (row_get r "MAP PROPERTIES PropertyTypes" (SStr "")))),
    (if isna (row_get r "MAP KEY_PROPERTIES PropertyTypes" (SStr "")) then []
     else strip_tokens (str (row_get r "MAP KEY_PROPERTIES PropertyTypes" (SStr "")))).
  destruct (isna (row_get r "MAP PROPERTIES PropertyTypes" (SStr ""))),
    (isna (row_get r "MAP KEY_PROPERTIES PropertyTypes" (SStr "")));
    repeat split; try done; try constructor; apply Hclean.
Qed.

Lemma list_cells_are_clean_witness :
  ∃ d, Bundle.row_to_holontype blank_label_row = Ok d
    ∧ ∃ props keys,
        lookup_path d ["spec"; "properties"] = Some (VList (VStr <$> props))
        ∧ lookup_path d ["spec"; "key_properties"] = Some (VList (VStr <$> keys))
        ∧ Forall clean_token props
        ∧ Forall clean_token keys.
Proof.
  assert (Hok : raised (Bundle.row_to_holontype blank_label_row) = None)
    by (vm_compute; reflexivity).
  destruct (Bundle.row_to_holontype blank_label_row) as [d|e] eqn:Hd;
    [|discriminate Hok].
  exists d. split; [reflexivity|].
  exact (proj2 (proj2 (list_cells_are_clean blank_label_row d (or_introl Hd)))).
Defined.

(** *** Buckets and files, once more *)

Lemma bucket_all_kinds (ds : list value) (bs bs' : Bundle.buckets) :
  Bundle.bucket_all bs ds = Ok bs' →
  ∀ d, d ∈ ds → ∃ kind, Bundle.type_kind_of d = Ok kind.
Proof.
  revert bs. induction ds as [|d ds IH]; intros bs; cbn [Bundle.bucket_all].
  - intros _ d Hd. by apply elem_of_nil in Hd.
  - destruct (Bundle.type_kind_of d) as [kind|] eqn:Hkind; step_result; [|done].
    intros Hbs d' [-> | Hd']%elem_of_cons; [by exists kind | by eapply IH].
Qed.

Lemma setdefault_append_concat (kind : string) (d : value) (bs : Bundle.buckets) :
  concat (Bundle.setdefault_append kind d bs).*2 ≡ₚ d :: concat bs.*2.
Proof.
  induction bs as [|[k items] bs IH]; cbn [Bundle.setdefault_append]; [done|].
  destruct (String.eqb k kind); rewrite !fmap_cons; cbn [snd concat].
  - rewrite <- app_assoc. cbn [app]. by rewrite <- Permutation_middle.
  - rewrite IH. by rewrite <- Permutation_middle.
Qed.

Lemma bucket_all_concat (ds : list value) (bs bs' : Bundle.buckets) :
  Bundle.bucket_all bs ds = Ok bs' → concat bs'.*2 ≡ₚ concat bs.*2 ++ ds.
Proof.
  revert bs. induction ds as [|d ds IH]; intros bs; cbn [Bundle.bucket_all].
  - intros [= <-]. by rewrite app_nil_r.
  - destruct (Bundle.type_kind_of d) as [kind|]; step_result; [|done].
    intros Hbs%IH. rewrite Hbs, setdefault_append_concat.
    rewrite <- app_comm_cons. apply Permutation_middle.
Qed.

(** The entries of the buckets of a list of descriptors. *)
Lemma bucket_entries (ds : list value) (bs : Bundle.buckets) :
  Bundle.descriptor_buckets ds = Ok bs →
  NoDup bs.*1
  ∧ ∀ kind items, (kind, items) ∈ bs ↔ items ≠ [] ∧ items = of_kind kind ds.
Proof.
  intros Hbs. unfold Bundle.descriptor_buckets in Hbs.
  destruct (bucket_all_spec ds [] (bucket_all_kinds _ _ _ Hbs))
    as (bs' & Hbs' & Hnd & Hget); [apply NoDup_nil_2|].
  rewrite Hbs in Hbs'. injection Hbs' as <-. split; [done|].
  intros kind items. split.
  - intros Hin%(elem_of_bucket_get _ _ _ Hnd). rewrite Hget in Hin.
    cbn [bucket_get] in Hin. destruct (of_kind kind ds); [done|].
    by injection Hin as <-.
  - intros [Hne ->]. apply bucket_get_elem_of. rewrite Hget. cbn [bucket_get].
    by destruct (of_kind kind ds).
Qed.

(** X14: grouping puts every descriptor in the bucket of its [type_kind],
    keeps the order of the descriptors inside each bucket, makes no empty
    bucket and no two buckets of one kind, and neither drops nor repeats
    a descriptor. *)
Theorem buckets_keep_everything_in_order (ds : list value) (bs : Bundle.buckets) :
  Bundle.descriptor_buckets ds = Ok bs →
  NoDup bs.*1
  ∧ (∀ kind items, (kind, items) ∈ bs ↔ items ≠ [] ∧ items = of_kind kind ds)
  ∧ concat bs.*2 ≡ₚ ds
  ∧ length (concat bs.*2) = length ds.
Proof.
  intros Hbs. destruct (bucket_entries ds bs Hbs) as [Hnd Hin].
  assert (Hperm : concat bs.*2 ≡ₚ ds).
  { unfold Bundle.descriptor_buckets in Hbs. by apply bucket_all_concat in Hbs. }
  split; [done|]. split; [done|]. split; [done|]. by rewrite Hperm.
Qed.

Lemma buckets_keep_everything_in_order_witness :
  ∃ bs,
    Bundle.descriptor_buckets
      [bare_descriptor "A"; bare_descriptor "B"; bare_descriptor "A"] = Ok bs
    ∧ bs.*1 = ["A"; "B"]
    ∧ length (concat bs.*2) = 3%nat.
Proof.
  eexists. split; [reflexivity|]. split; [reflexivity|].
  exact (proj2 (proj2 (proj2 (buckets_keep_everything_in_order
    [bare_descriptor "A"; bare_descriptor "B"; bare_descriptor "A"] _ eq_refl)))).
Defined.

(** *** The run of the bundle notebook as a whole *)

(** The kinds of the buckets of a returned descriptor list are converter
    literals. *)
Lemma bundle_bucket_kinds (df : list row) (ds : list value) (bs : Bundle.buckets) :
  Bundle.all_desc df = Ok ds →
  Bundle.descriptor_buckets ds = Ok bs →
  ∀ kind, kind ∈ bs.*1 → kind ∈ bundle_kinds.
Proof.
  intros Hds Hbs kind ([k items] & -> & Hin)%list_elem_of_fmap. cbn [fst].
  apply (bucket_entries ds bs Hbs) in Hin as [Hne ->].
  destruct (of_kind k ds) as [|d items] eqn:Hitems; [done|].
  assert (Hd : d ∈ of_kind k ds) by (rewrite Hitems; apply list_elem_of_here).
  unfold of_kind in Hd. apply list_elem_of_filter in Hd as [Hk Hd].
  destruct (bundle_all_desc_kind df ds d Hds Hd) as (k' & Hk' & _ & Hkind).
  rewrite Hk in Hkind. by injection Hkind as ->.
Qed.



(** X16: a run of the bundle notebook that returns leaves in the output
    directory what it held, the bucket files and "schema.json"; every
    entry that is neither a bucket file nor "schema.json" is as it was;
    and the bucket files are among "holontypes.json",
    "propertytypes.json" and "relationshiptypes.json". *)
Theorem run_touches_its_files_only
    (df : list row) (out_dir dir : Bundle.directory) :
  Bundle.run df out_dir = Ok dir →
  ∃ bs,
    Bundle.all_desc df ≫= Bundle.descriptor_buckets = Ok bs
    ∧ dom dir = dom out_dir ∪ list_to_set (bucket_files bs) ∪ {[ "schema.json" ]}
    ∧ (∀ f, f ∉ bucket_files bs → f ≠ "schema.json" → dir !! f = out_dir !! f)
    ∧ (∀ f, f ∈ bucket_files bs →
         f ∈ ["holontypes.json"; "propertytypes.json"; "relationshiptypes.json"]).
Proof.
  unfold Bundle.run.
  destruct (Bundle.all_desc df) as [ds|e] eqn:Hds; step_result; [|done].
  destruct (Bundle.descriptor_buckets ds) as [bs|e] eqn:Hbs; step_result; [|done].
  intros [= <-]. exists bs. split; [done|]. split; [|split].
  - rewrite dom_insert_L, dom_write_buckets. set_solver.
  - intros f Hf Hne. rewrite lookup_insert_ne by done.
    by apply write_buckets_lookup_other.
  - intros f (kind & -> & Hkind)%list_elem_of_fmap.
    apply (bundle_bucket_kinds df ds bs Hds Hbs) in Hkind.
    unfold bundle_kinds in Hkind. rewrite !elem_of_cons, elem_of_nil in Hkind.
    rewrite !elem_of_cons.
    destruct Hkind as [-> | [-> | [-> | []]]]; vm_compute; tauto.
Qed.

Lemma run_touches_its_files_only_witness :
  ∃ dir bs,
    Bundle.run [member_of_row] used_directory = Ok dir
    ∧ Bundle.all_desc [member_of_row] ≫= Bundle.descriptor_buckets = Ok bs
    ∧ dir !! "old.json" = used_directory !! "old.json".
Proof.
  assert (Hok : raised (Bundle.run [member_of_row] used_directory) = None)
    by (vm_compute; reflexivity).
  destruct (Bundle.run [member_of_row] used_directory) as [dir|e] eqn:Hrun;
    [|discriminate Hok].
  destruct (run_touches_its_files_only [member_of_row] used_directory dir Hrun)
    as (bs & Hbs & _ & Hother & Hfiles).
  exists dir, bs. split; [reflexivity|]. split; [exact Hbs|].
  apply Hother; [|discriminate].
  intros Hold%Hfiles. revert Hold. rewrite !elem_of_cons, elem_of_nil.
  intros [H | [H | [H | []]]]; discriminate H.
Defined.

(** *** The keys of a descriptor *)

Lemma bundle_header_dom (r : row) (descriptor_name : string) (h : gmap string value) :
  Bundle.common_header r descriptor_name = Ok h → dom h = header_keys.
Proof.
  enter_converter. destruct (r !! "TypeKind") as [kind|]; step_result; [|done].
  intros [= <-]. unfold header_keys.
  rewrite !dom_insert_L, dom_singleton_L. set_solver.
Qed.

Lemma single_header_dom (r : row) (descriptor_name : string) (h : gmap string value) :
  SingleFile.common_header r descriptor_name = Ok h → dom h = header_keys.
Proof.
  enter_converter. destruct (r !! "TypeKind") as [kind|]; step_result; [|done].
  intros [= <-]. unfold header_keys.
  rewrite !dom_insert_L, dom_singleton_L. set_solver.
Qed.

Ltac descriptor_keys_of Hdom :=
  intros [= <-]; unfold keys_of, spec_keys, item; cbn [from_option keys_of];
  rewrite ?lookup_insert_eq, ?lookup_insert_ne, ?lookup_singleton_eq by done;
  cbn [from_option keys_of];
  rewrite ?dom_union_L, !dom_insert_L, ?dom_singleton_L, Hdom;
  unfold wrapper_keys, header_keys, relationship_keys; split; set_solver.

(** X17: the keys of the descriptors.  A descriptor has the four keys
    [type_name], [type_kind], [described_by] and [spec]; its spec has the
    seven keys of the common header and those of its kind, the same in
    both notebooks: [type_name], [properties] and [key_properties] for a
    holon type, [property_name] and [value_type] (present also when it
    holds no reference) for a property type, the ten relationship keys
    for a relationship type. *)
Theorem descriptor_keys (r : row) :
  (∀ d, Bundle.row_to_holontype r = Ok d ∨ SingleFile.row_to_holontype r = Ok d →
     keys_of d = wrapper_keys
     ∧ spec_keys d = header_keys ∪ {[ "type_name"; "properties"; "key_properties" ]})
  ∧ (∀ d, Bundle.row_to_propertytype r = Ok d
          ∨ SingleFile.row_to_propertytype r = Ok d →
       keys_of d = wrapper_keys
       ∧ spec_keys d = header_keys ∪ {[ "property_name"; "value_type" ]})
  ∧ (∀ outs d,
       Bundle.row_to_relationshiptype r = Ok outs
       ∨ SingleFile.row_to_relationshiptype r = Ok outs →
       d ∈ outs →
       keys_of d = wrapper_keys
       ∧ spec_keys d = header_keys ∪ relationship_keys).
Proof.
  split; [|split].
  - intros d [Hd | Hd]; revert Hd.
    + unfold Bundle.row_to_holontype, row_item.
      destruct (r !! "Type Name") as [name|]; step_result; [|done].
      destruct (Bundle.common_header r _) as [h|] eqn:Hh; step_result; [|done].
      descriptor_keys_of (bundle_header_dom _ _ _ Hh).
    + unfold SingleFile.row_to_holontype, row_item.
      destruct (r !! "Type Name") as [name|]; step_result; [|done].
      destruct (SingleFile.common_header r _) as [h|] eqn:Hh; step_result; [|done].
      descriptor_keys_of (single_header_dom _ _ _ Hh).
  - intros d [Hd | Hd]; revert Hd.
    + unfold Bundle.row_to_propertytype, row_item.
      destruct (r !! "Type Name") as [name|]; step_result; [|done].
      destruct (Bundle.common_header r _) as [h|] eqn:Hh; step_result; [|done].
      destruct (strip_method _) as [ref_val|]; step_result; [|done].
      descriptor_keys_of (bundle_header_dom _ _ _ Hh).
    + unfold SingleFile.row_to_propertytype, row_item.
      destruct (r !! "Type Name") as [name|]; step_result; [|done].
      destruct (SingleFile.common_header r _) as [h|] eqn:Hh; step_result; [|done].
      destruct (strip_method _) as [ref_val|]; step_result; [|done].
      descriptor_keys_of (single_header_dom _ _ _ Hh).
  - intros outs d [Houts | Houts] Hd; revert Houts.
    + unfold Bundle.row_to_relationshiptype, row_item.
      destruct (r !! "Type Name") as [rel|]; step_result; [|done].
      destruct (int (or_ (row_get r "Target Min Cardinality" SNone) (SInt 0)))
        as [tmin|]; step_result; [|done].
      destruct (int (or_ (row_get r "Target Max Cardinality" SNone) (SInt 1)))
        as [tmax|]; step_result; [|done].
      intros Houts%mapM_result_Forall2.
      destruct (Forall2_elem_of_r _ _ _ _ Houts Hd) as ([src tgt] & _ & Hy).
      revert Hy.
      destruct (Bundle.common_header r _) as [h|] eqn:Hh; step_result; [|done].
      descriptor_keys_of (bundle_header_dom _ _ _ Hh).
    + unfold SingleFile.row_to_relationshiptype, row_item.
      destruct (r !! "Type Name") as [rel|]; step_result; [|done].
      destruct (int (or_ (row_get r "Target Min Cardinality" SNone) (SInt 0)))
        as [tmin|]; step_result; [|done].
      destruct (int (or_ (row_get r "Target Max Cardinality" SNone) (SInt 1)))
        as [tmax|]; step_result; [|done].
      intros Houts%mapM_result_Forall2.
      destruct (Forall2_elem_of_r _ _ _ _ Houts Hd) as ([src tgt] & _ & Hy).
      revert Hy.
      destruct (SingleFile.common_header r _) as [h|] eqn:Hh; step_result; [|done].
      descriptor_keys_of (single_header_dom _ _ _ Hh).
Qed.

Lemma descriptor_keys_witness :
  ∃ d, Bundle.row_to_propertytype color_row = Ok d
    ∧ keys_of d = wrapper_keys
    ∧ spec_keys d = header_keys ∪ {[ "property_name"; "value_type" ]}.
Proof.
  assert (Hok : raised (Bundle.row_to_propertytype color_row) = None)
    by (vm_compute; reflexivity).
  destruct (Bundle.row_to_propertytype color_row) as [d|e] eqn:Hd;
    [|discriminate Hok].
  exists d. split; [reflexivity|].
  exact (proj1 (proj2 (descriptor_keys color_row)) d (or_introl Hd)).
Defined.

(** *** The names of the outputs *)

Lemma string_app_length (s u : string) :
  String.length (s +:+ u) = (String.length s + String.length u)%nat.
Proof. induction s as [|c s IH]; simpl; [done | by f_equal]. Qed.

Lemma string_app_inv_tail (s s' u : string) : s +:+ u = s' +:+ u → s = s'.
Proof.
  revert s'. induction s as [|c s IH]; intros [|c' s'].
  - done.
  - intros H%(f_equal String.length). rewrite !string_app_length in H.
    simpl in H. lia.
  - intros H%(f_equal String.length). rewrite !string_app_length in H.
    simpl in H. lia.
  - simpl. intros [= -> H]. by rewrite (IH _ H).
Qed.

(** X18: the names of the outputs follow the time stamp: two different
    time stamps give two different file names in the single-file notebook
    and two different directory names in the bundle notebook, so that a
    run under a new time stamp writes over nothing of an earlier one. *)
Theorem output_names_follow_the_timestamp (t t' : string) :
  t ≠ t' →
  SingleFile.out_name t ≠ SingleFile.out_name t'
  ∧ Bundle.out_dir_name t ≠ Bundle.out_dir_name t'.
Proof.
  intros Hne. split; intros H; apply Hne.
  - unfold SingleFile.out_name, SingleFile.BASE_NAME in H.
    do 2 apply (inj (String.app _)) in H. by apply string_app_inv_tail in H.
  - unfold Bundle.out_dir_name in H. by apply (inj (String.app _)) in H.
Qed.

Lemma output_names_follow_the_timestamp_witness :
  SingleFile.out_name "20240101_120000" ≠ SingleFile.out_name "20240101_120001"
  ∧ Bundle.out_dir_name "20240101_120000" ≠ Bundle.out_dir_name "20240101_120001".
Proof.
  apply (output_names_follow_the_timestamp "20240101_120000" "20240101_120001").
  discriminate.
Defined.
